(** * simple-mcp-server: the tool registry and the conversation orchestrator

    A shallow embedding of [mcp_time_server.py] (the registry: [call_tool],
    [get_tools_definition]) and of [mcp_ollama_client.py] (the invoker:
    [get_mcp_tool_definitions], [call_mcp_server_tool]; the orchestrator:
    [chat_with_ollama_and_tools]), followed by the properties of the
    protocol specification that can be settled on them.

    Python values that travel as JSON are an inductive type; the effects of
    the client (HTTP requests, the model, [uuid.uuid4]) are answered by an
    environment of oracles indexed by the number of the call, and threaded
    through a small state-and-exception monad that also keeps a trace of
    the calls. *)

From Stdlib Require Import List String Ascii ZArith Lia Bool Arith.
From Stdlib Require Import DecimalString.
Import ListNotations.
Local Open Scope string_scope.
Set Warnings "-register-all".

(** ** Python values *)

Module Py.

(** The values [json.loads] produces and [json.dumps] accepts.  A character
    of a string is a code point below 256.  A float is kept as its Python
    [repr] (the text both [str] and [json.dumps] print it from).  A dict is
    the list of its items in insertion order. *)
Inductive json : Type :=
| JNull
| JBool (b : bool)
| JInt (z : Z)
| JFloat (repr : string)
| JStr (s : string)
| JArr (items : list json)
| JObj (items : list (string * json)).

(** The exceptions the two programs can meet. *)
Inductive exn : Type :=
| RequestException (msg : string)
| KeyError (key : string)
| TypeError (msg : string)
| AttributeError (msg : string)
| ModelError (msg : string).

Definition result (A : Type) : Type := (exn + A)%type.

Definition dquote : ascii := ascii_of_nat 34.
Definition squote : ascii := ascii_of_nat 39.
Definition backslash : ascii := ascii_of_nat 92.
Definition newline : string := String (ascii_of_nat 10) EmptyString.

Definition chr (a : ascii) : string := String a EmptyString.

(** [d.get(key)] and [key in d] and [d[key]] on the items of a dict. *)
Fixpoint dict_get (key : string) (d : list (string * json)) : option json :=
  match d with
  | [] => None
  | (k, v) :: rest => if String.eqb k key then Some v else dict_get key rest
  end.

Definition dict_has (key : string) (d : list (string * json)) : bool :=
  match dict_get key d with Some _ => true | None => false end.

(** Truth value of a Python object, as [if x:] and [not x] take it. *)
Definition float_is_zero (r : string) : bool :=
  String.eqb r "0.0" || String.eqb r "-0.0".

Definition truthy (v : json) : bool :=
  match v with
  | JNull => false
  | JBool b => b
  | JInt z => negb (Z.eqb z 0)
  | JFloat r => negb (float_is_zero r)
  | JStr s => negb (String.eqb s "")
  | JArr l => match l with [] => false | _ => true end
  | JObj d => match d with [] => false | _ => true end
  end.

(** [sub in s] on strings: substring test. *)
Fixpoint is_infix (sub s : string) : bool :=
  String.prefix sub s
  || match s with
     | EmptyString => false
     | String _ rest => is_infix sub rest
     end.

Definition type_name (v : json) : string :=
  match v with
  | JNull => "NoneType"
  | JBool _ => "bool"
  | JInt _ => "int"
  | JFloat _ => "float"
  | JStr _ => "str"
  | JArr _ => "list"
  | JObj _ => "dict"
  end.

(** [key in v] for a string [key]: key membership on a dict, element
    membership on a list (only the string [key] itself compares equal to
    it), substring test on a string, TypeError on the rest. *)
Definition py_in (key : string) (v : json) : result bool :=
  match v with
  | JObj d => inr (dict_has key d)
  | JArr l =>
      inr (existsb (fun x => match x with JStr s => String.eqb s key | _ => false end) l)
  | JStr s => inr (is_infix key s)
  | _ => inl (TypeError ("argument of type '" ++ type_name v ++ "' is not iterable"))
  end.

(** [v[key]] for a string [key]. *)
Definition py_getitem (v : json) (key : string) : result json :=
  match v with
  | JObj d => match dict_get key d with
              | Some x => inr x
              | None => inl (KeyError key)
              end
  | JArr _ => inl (TypeError "list indices must be integers or slices, not str")
  | JStr _ => inl (TypeError "string indices must be integers, not 'str'")
  | _ => inl (TypeError ("'" ++ type_name v ++ "' object is not subscriptable"))
  end.

(** [v.get(key, default)]: only a dict has the method. *)
Definition py_get (v : json) (key : string) (default : json) : result json :=
  match v with
  | JObj d => inr (match dict_get key d with Some x => x | None => default end)
  | _ => inl (AttributeError ("'" ++ type_name v ++ "' object has no attribute 'get'"))
  end.

(** *** Printing *)

Definition str_of_int (z : Z) : string := NilZero.string_of_int (Z.to_int z).
Definition str_of_nat (n : nat) : string := NilZero.string_of_uint (Nat.to_uint n).

Definition hex_digit (n : nat) : ascii :=
  if (n <? 10)%nat then ascii_of_nat (48 + n) else ascii_of_nat (87 + n).

Definition hex2 (a : ascii) : string :=
  let n := nat_of_ascii a in
  String (hex_digit (n / 16)) (String (hex_digit (n mod 16)) EmptyString).

Definition concat_map {A : Type} (f : A -> string) (l : list A) : string :=
  String.concat "" (map f l).

(** [json.dumps] with its defaults: [ensure_ascii=True], separators
    [", "] and [": "]. *)
Definition dumps_char (a : ascii) : string :=
  let n := nat_of_ascii a in
  if (n =? 34)%nat then String backslash (chr dquote)
  else if (n =? 92)%nat then String backslash (chr backslash)
  else if (n =? 10)%nat then String backslash "n"
  else if (n =? 13)%nat then String backslash "r"
  else if (n =? 9)%nat then String backslash "t"
  else if (n =? 8)%nat then String backslash "b"
  else if (n =? 12)%nat then String backslash "f"
  else if ((32 <=? n) && (n <=? 126))%nat then chr a
  else String backslash ("u00" ++ hex2 a).

Definition dumps_str (s : string) : string :=
  chr dquote ++ concat_map dumps_char (list_ascii_of_string s) ++ chr dquote.

Definition dumps_float (r : string) : string :=
  if String.eqb r "nan" then "NaN"
  else if String.eqb r "inf" then "Infinity"
  else if String.eqb r "-inf" then "-Infinity"
  else r.

Fixpoint json_dumps (v : json) : string :=
  match v with
  | JNull => "null"
  | JBool true => "true"
  | JBool false => "false"
  | JInt z => str_of_int z
  | JFloat r => dumps_float r
  | JStr s => dumps_str s
  | JArr l => "[" ++ String.concat ", " (map json_dumps l) ++ "]"
  | JObj d =>
      "{" ++ String.concat ", "
               (map (fun kv => dumps_str (fst kv) ++ ": " ++ json_dumps (snd kv)) d)
          ++ "}"
  end.

(** [repr] of a string and of a value, and [str], which an f-string
    applies to the value it formats. *)
Definition has_char (c : ascii) (s : string) : bool :=
  existsb (Ascii.eqb c) (list_ascii_of_string s).

Definition repr_char (quote : ascii) (a : ascii) : string :=
  let n := nat_of_ascii a in
  if Ascii.eqb a quote then String backslash (chr quote)
  else if (n =? 92)%nat then String backslash (chr backslash)
  else if (n =? 10)%nat then String backslash "n"
  else if (n =? 13)%nat then String backslash "r"
  else if (n =? 9)%nat then String backslash "t"
  else if ((n <? 32) || ((127 <=? n) && (n <=? 160)) || (n =? 173))%nat
       then String backslash ("x" ++ hex2 a)
  else chr a.

Definition repr_str (s : string) : string :=
  let quote := if has_char squote s && negb (has_char dquote s)
               then dquote else squote in
  chr quote ++ concat_map (repr_char quote) (list_ascii_of_string s) ++ chr quote.

Fixpoint py_repr (v : json) : string :=
  match v with
  | JNull => "None"
  | JBool true => "True"
  | JBool false => "False"
  | JInt z => str_of_int z
  | JFloat r => r
  | JStr s => repr_str s
  | JArr l => "[" ++ String.concat ", " (map py_repr l) ++ "]"
  | JObj d =>
      "{" ++ String.concat ", "
               (map (fun kv => repr_str (fst kv) ++ ": " ++ py_repr (snd kv)) d)
          ++ "}"
  end.

Definition py_str (v : json) : string :=
  match v with
  | JStr s => s
  | _ => py_repr v
  end.

End Py.
Import Py.

(** ** The registry: mcp_time_server.py *)

Module Server.

(** A reading of [datetime.now(timezone.utc)]: an aware datetime whose
    offset is zero. *)
Record datetime : Type := {
  year : nat; month : nat; day : nat;
  hour : nat; minute : nat; second : nat;
  microsecond : nat
}.

(** ["%0wd" % n] *)
Fixpoint zeros (k : nat) : string :=
  match k with O => "" | S k' => String "0" (zeros k') end.

Definition zfill (w : nat) (n : nat) : string :=
  let d := str_of_nat n in zeros (w - String.length d) ++ d.

(** [datetime.isoformat()] of an aware UTC datetime: date, [T], time, the
    microseconds when they are not zero, and the offset [+00:00]. *)
Definition isoformat (d : datetime) : string :=
  zfill 4 (year d) ++ "-" ++ zfill 2 (month d) ++ "-" ++ zfill 2 (day d)
  ++ "T" ++ zfill 2 (hour d) ++ ":" ++ zfill 2 (minute d) ++ ":" ++ zfill 2 (second d)
  ++ (if (microsecond d =? 0)%nat then "" else "." ++ zfill 6 (microsecond d))
  ++ "+00:00".

(** [x == "get_current_time"] for a value [x] taken from the request. *)
Definition eq_str (v : json) (s : string) : bool :=
  match v with JStr t => String.eqb t s | _ => false end.

(** [call_tool]: the handler of [POST /mcp/v1/call].  [now] is what the
    clock gives when the handler reads it; [tool_call] holds the items of
    the request dict. *)
Definition call_tool (now : datetime) (tool_call : list (string * json)) : json :=
  let tool_name := match dict_get "tool_name" tool_call with
                   | Some v => v | None => JNull end in
  let tool_args := match dict_get "arguments" tool_call with
                   | Some v => v | None => JObj [] end in
  if eq_str tool_name "get_current_time" then
    let current_utc_time := isoformat now ++ "Z" in
    JObj [("tool_name", tool_name);
          ("output", JObj [("current_time_utc", JStr current_utc_time)])]
  else
    JObj [("tool_name", tool_name);
          ("error", JStr ("Tool '" ++ py_str tool_name
                          ++ "' not found or supported by this server."))].

(** [get_tools_definition]: the handler of [GET /mcp/v1/tools]. *)
Definition get_current_time_parameters : json :=
  JObj [("type", JStr "object"); ("properties", JObj []); ("required", JArr [])].

Definition get_tools_definition : json :=
  JObj [("tools", JArr [
    JObj [("name", JStr "get_current_time");
          ("description", JStr "Get the current time in UTC. Useful for answering questions about the current time or date.");
          ("parameters", get_current_time_parameters)]])].

(** The names the registry publishes. *)
Definition registered (tool_name : json) : bool :=
  match dict_get "tools" (match get_tools_definition with JObj d => d | _ => [] end) with
  | Some (JArr tools) =>
      existsb (fun t => match t with
                        | JObj d => match dict_get "name" d with
                                    | Some (JStr n) => eq_str tool_name n
                                    | _ => false
                                    end
                        | _ => false
                        end) tools
  | _ => false
  end.

End Server.

(** ** The invoker and the orchestrator: mcp_ollama_client.py *)

Module Client.

Definition OLLAMA_MODEL : string := "llama3.2".
Definition MCP_SERVER_URL : string := "http://localhost:8001".

(** *** What the outside world answers *)

(** The body of an HTTP response: [response.json()] decodes it or raises
    [requests.exceptions.JSONDecodeError], a [RequestException]. *)
Inductive Body : Type :=
| NotJson (msg : string)
| Json (v : json).

Record Response : Type := {
  status_code : Z;
  reason : string;
  url : string;
  body : Body
}.

(** [requests.get] and [requests.post] return a response or raise a
    [RequestException] (connection refused, timeout, ...) whose [str] is
    [msg]. *)
Inductive HttpReply : Type :=
| HttpRaises (msg : string)
| HttpAnswers (r : Response).

(** A tool-call intent of the model:
    [{'id'?: ..., 'function': {'name': ..., 'arguments': ...}}]. *)
Record Function : Type := {
  fn_name : string;
  fn_arguments : json
}.

Record ToolCall : Type := {
  tc_id : option string;
  tc_function : Function
}.

(** The answer of [ollama.chat]: [response['message']] with its [content]
    and its [tool_calls], which may be missing. *)
Record ChatMessage : Type := {
  content : string;
  tool_calls : option (list ToolCall)
}.

Record ChatResponse : Type := {
  message : ChatMessage
}.

Inductive ChatReply : Type :=
| ChatRaises (msg : string)
| ChatAnswers (r : ChatResponse).

(** The dicts appended to [messages]. *)
Inductive Message : Type :=
| System (content : string)
| User (content : string)
| Tool (tool_call_id : string) (content : string).

(** The environment answers the k-th call of each kind; the answer may
    depend on the arguments of the call. *)
Record Env : Type := {
  requests_get_reply : nat -> string -> HttpReply;
  requests_post_reply : nat -> string -> json -> HttpReply;
  ollama_chat_reply : nat -> list Message -> option json -> ChatReply;
  uuid4_str : nat -> string
}.

(** *** The state of a run and its monad *)

Inductive Event : Type :=
| EvGet (url : string)
| EvPost (url : string) (payload : json)
| EvChat (model : string) (messages : list Message) (tools : option json)
| EvUuid (value : string).

Record Proc : Type := {
  gets : nat;
  posts : nat;
  chats : nat;
  uuids : nat;
  trace : list Event
}.

Definition start : Proc :=
  {| gets := 0; posts := 0; chats := 0; uuids := 0; trace := [] |}.

Definition M (A : Type) : Type := Proc -> result A * Proc.

Definition ret {A : Type} (a : A) : M A := fun s => (inr a, s).

Definition raise {A : Type} (e : exn) : M A := fun s => (inl e, s).

Definition bind {A B : Type} (m : M A) (k : A -> M B) : M B :=
  fun s => match m s with
           | (inr a, s') => k a s'
           | (inl e, s') => (inl e, s')
           end.

Definition lift {A : Type} (r : result A) : M A := fun s => (r, s).

(** [try: body except requests.exceptions.RequestException as e: handler]:
    only a [RequestException] is caught; what the body did before raising
    stays done. *)
Definition try_except_RequestException {A : Type}
    (body : M A) (handler : string -> M A) : M A :=
  fun s => match body s with
           | (inl (RequestException e), s') => handler e s'
           | other => other
           end.

Notation "x <- m ;; k" := (bind m (fun x => k))
  (at level 61, m at next level, right associativity).

Definition is_tool (m : Message) : bool :=
  match m with Tool _ _ => true | _ => false end.

(** *** requests *)

(** [response.raise_for_status()] *)
Definition raise_for_status (r : Response) : result unit :=
  let st := status_code r in
  if ((400 <=? st) && (st <? 500))%Z then
    inl (RequestException (str_of_int st ++ " Client Error: " ++ reason r
                           ++ " for url: " ++ url r))
  else if ((500 <=? st) && (st <? 600))%Z then
    inl (RequestException (str_of_int st ++ " Server Error: " ++ reason r
                           ++ " for url: " ++ url r))
  else inr tt.

(** [response.json()] *)
Definition response_json (r : Response) : result json :=
  match body r with
  | Json v => inr v
  | NotJson msg => inl (RequestException msg)
  end.

Section WithEnv.

Variable env : Env.

Definition requests_get (u : string) : M Response :=
  fun s =>
    let s' := {| gets := S (gets s); posts := posts s; chats := chats s;
                 uuids := uuids s; trace := trace s ++ [EvGet u] |} in
    match requests_get_reply env (gets s) u with
    | HttpRaises msg => (inl (RequestException msg), s')
    | HttpAnswers r => (inr r, s')
    end.

Definition requests_post (u : string) (payload : json) : M Response :=
  fun s =>
    let s' := {| gets := gets s; posts := S (posts s); chats := chats s;
                 uuids := uuids s; trace := trace s ++ [EvPost u payload] |} in
    match requests_post_reply env (posts s) u payload with
    | HttpRaises msg => (inl (RequestException msg), s')
    | HttpAnswers r => (inr r, s')
    end.

(** [ollama.chat(model=..., messages=..., tools=...)]; [tools] is [None]
    when the argument is not passed. *)
Definition ollama_chat (model : string) (messages : list Message)
    (tools : option json) : M ChatResponse :=
  fun s =>
    let s' := {| gets := gets s; posts := posts s; chats := S (chats s);
                 uuids := uuids s;
                 trace := trace s ++ [EvChat model messages tools] |} in
    match ollama_chat_reply env (chats s) messages tools with
    | ChatRaises msg => (inl (ModelError msg), s')
    | ChatAnswers r => (inr r, s')
    end.

(** [str(uuid.uuid4())] *)
Definition uuid4 : M string :=
  fun s =>
    let v := uuid4_str env (uuids s) in
    (inr v, {| gets := gets s; posts := posts s; chats := chats s;
               uuids := S (uuids s); trace := trace s ++ [EvUuid v] |}).

(** *** The invoker *)

Definition get_mcp_tool_definitions : M json :=
  try_except_RequestException
    (response <- requests_get (MCP_SERVER_URL ++ "/mcp/v1/tools") ;;
     _ <- lift (raise_for_status response) ;;
     j <- lift (response_json response) ;;
     lift (py_get j "tools" (JArr [])))
    (fun e => ret (JArr [])).

Definition call_payload (tool_name : string) (arguments : json) : json :=
  JObj [("tool_name", JStr tool_name); ("arguments", arguments)].

Definition call_mcp_server_tool (tool_name : string) (arguments : json) : M json :=
  let payload := call_payload tool_name arguments in
  try_except_RequestException
    (response <- requests_post (MCP_SERVER_URL ++ "/mcp/v1/call") payload ;;
     _ <- lift (raise_for_status response) ;;
     lift (response_json response))
    (fun e => ret (JObj [("tool_name", JStr tool_name); ("error", JStr e)])).

(** *** The orchestrator *)

Definition system_message_content (mcp_tool_definitions : json) : string :=
  "You are a helpful assistant." ++ newline
  ++ "You have access to tools to help answer user questions." ++ newline
  ++ "Specifically, you can use the 'get_current_time' tool to find out the current time in UTC." ++ newline
  ++ "When a user asks a question about the current time or date," ++ newline
  ++ "you MUST respond by calling the 'get_current_time' tool." ++ newline
  ++ "Otherwise, answer normally." ++ newline
  ++ "Here are the tool definitions: " ++ json_dumps mcp_tool_definitions ++ newline.

(** Lines 111-124: the Tool message built from what the invoker returned.
    The test is ["error" in tool_output_from_mcp_server]; the branches read
    the key [error], or the key [output]. *)
Definition tool_message (tool_call_id : string) (tool_output : json) : result Message :=
  match py_in "error" tool_output with
  | inl e => inl e
  | inr true =>
      match py_getitem tool_output "error" with
      | inl e => inl e
      | inr err => inr (Tool tool_call_id (json_dumps (JObj [("error", err)])))
      end
  | inr false =>
      match py_getitem tool_output "output" with
      | inl e => inl e
      | inr out => inr (Tool tool_call_id (json_dumps out))
      end
  end.

(** The body of [for tool_call in tool_calls:].  The default of
    [tool_call.get('id', str(uuid.uuid4()))] is evaluated whether or not
    the key is there. *)
Definition handle_tool_call (tool_call : ToolCall) (messages : list Message)
    : M (list Message) :=
  let tool_name := fn_name (tc_function tool_call) in
  let tool_arguments := fn_arguments (tc_function tool_call) in
  fresh <- uuid4 ;;
  let tool_call_id := match tc_id tool_call with
                      | Some i => i
                      | None => fresh
                      end in
  tool_output_from_mcp_server <- call_mcp_server_tool tool_name tool_arguments ;;
  m <- lift (tool_message tool_call_id tool_output_from_mcp_server) ;;
  ret (messages ++ [m])%list.

Fixpoint dispatch_tools (tool_calls : list ToolCall) (messages : list Message)
    : M (list Message) :=
  match tool_calls with
  | [] => ret messages
  | tool_call :: rest =>
      messages' <- handle_tool_call tool_call messages ;;
      dispatch_tools rest messages'
  end.

(** [if tool_calls:] is false on [None] and on the empty list. *)
Definition requested (tool_calls : option (list ToolCall)) : list ToolCall :=
  match tool_calls with
  | Some l => l
  | None => []
  end.

(** One pass through the body of [while True:]: the loop goes on with the
    extended conversation, or breaks with the final text. *)
Inductive Step : Type :=
| Continue (messages : list Message)
| Break (final_response_content : string).

Definition loop_body (mcp_tool_definitions : json) (messages : list Message) : M Step :=
  response <- ollama_chat OLLAMA_MODEL messages (Some mcp_tool_definitions) ;;
  match requested (tool_calls (message response)) with
  | [] => ret (Break (content (message response)))
  | tool_calls => messages' <- dispatch_tools tool_calls messages ;;
                  ret (Continue messages')
  end.

(** How a run ends: the function printed the final text and returned, or
    the loop was still going when the fuel ran out. *)
Inductive Outcome : Type :=
| Answered (text : string) (messages : list Message)
| Running (messages : list Message).

Fixpoint while_true (fuel : nat) (mcp_tool_definitions : json)
    (messages : list Message) : M Outcome :=
  match fuel with
  | O => ret (Running messages)
  | S fuel' =>
      step <- loop_body mcp_tool_definitions messages ;;
      match step with
      | Continue messages' => while_true fuel' mcp_tool_definitions messages'
      | Break text => ret (Answered text messages)
      end
  end.

Definition chat_with_ollama_and_tools (fuel : nat) (user_prompt : string) : M Outcome :=
  mcp_tool_definitions <- get_mcp_tool_definitions ;;
  if negb (truthy mcp_tool_definitions) then
    let messages := [User user_prompt] in
    response <- ollama_chat OLLAMA_MODEL messages None ;;
    ret (Answered (content (message response)) messages)
  else
    let messages := [System (system_message_content mcp_tool_definitions);
                     User user_prompt] in
    while_true fuel mcp_tool_definitions messages.

End WithEnv.

End Client.

(** ** Notions of the protocol specification *)

Module Protocol.
Import Server Client.

Definition tools_url : string := MCP_SERVER_URL ++ "/mcp/v1/tools".
Definition call_url : string := MCP_SERVER_URL ++ "/mcp/v1/call".

(** A transport failure and its text: the request raised, or the response
    came with a 4xx or 5xx status. *)
Definition transport_failure (rep : HttpReply) : option string :=
  match rep with
  | HttpRaises msg => Some msg
  | HttpAnswers r =>
      let st := status_code r in
      if ((400 <=? st) && (st <? 500))%Z then
        Some (str_of_int st ++ " Client Error: " ++ reason r ++ " for url: " ++ url r)
      else if ((500 <=? st) && (st <? 600))%Z then
        Some (str_of_int st ++ " Server Error: " ++ reason r ++ " for url: " ++ url r)
      else None
  end.

(** The in-band results of the wire protocol. *)
Definition Err (tool_name : string) (message : string) : json :=
  JObj [("tool_name", JStr tool_name); ("error", JStr message)].

(** Discovery came back with the empty tool list. *)
Definition empty_tool_list (rep : HttpReply) : Prop :=
  exists r d, rep = HttpAnswers r /\ transport_failure rep = None
              /\ body r = Json (JObj d) /\ dict_get "tools" d = Some (JArr []).

(** What the invoker hands to the orchestrator for the k-th POST. *)
Definition invoke_result (env : Env) (k : nat) (tool_name : string) (arguments : json) : json :=
  let rep := requests_post_reply env k call_url (call_payload tool_name arguments) in
  match transport_failure rep with
  | Some e => Err tool_name e
  | None =>
      match rep with
      | HttpAnswers r =>
          match body r with
          | Json v => v
          | NotJson msg => Err tool_name msg
          end
      | HttpRaises msg => Err tool_name msg
      end
  end.

Definition result_of (env : Env) (k : nat) (tc : ToolCall) : json :=
  invoke_result env k (fn_name (tc_function tc)) (fn_arguments (tc_function tc)).

(** A result shaped as the wire protocol says: a dict with the key
    [error] (failure) or the key [output] (success). *)
Definition well_shaped (out : json) : bool :=
  match out with
  | JObj d => dict_has "error" d || dict_has "output" d
  | _ => false
  end.

Definition is_error_result (out : json) : bool :=
  match out with
  | JObj d => dict_has "error" d
  | _ => false
  end.

(** The call_id of the intent that is dispatched when [u] identifiers have
    been drawn: its own, or the one drawn for it. *)
Definition call_id_of (env : Env) (u : nat) (tc : ToolCall) : string :=
  match tc_id tc with
  | Some i => i
  | None => uuid4_str env u
  end.

(** The state of the run after one more GET, POST, identifier or model
    call. *)
Definition fetched (s : Proc) : Proc :=
  {| gets := S (gets s); posts := posts s; chats := chats s; uuids := uuids s;
     trace := trace s ++ [EvGet tools_url] |}.

Definition posted (s : Proc) (payload : json) : Proc :=
  {| gets := gets s; posts := S (posts s); chats := chats s; uuids := uuids s;
     trace := trace s ++ [EvPost call_url payload] |}.

Definition drawn (env : Env) (s : Proc) : Proc :=
  {| gets := gets s; posts := posts s; chats := chats s; uuids := S (uuids s);
     trace := trace s ++ [EvUuid (uuid4_str env (uuids s))] |}.

Definition asked (s : Proc) (messages : list Message) (tools : option json) : Proc :=
  {| gets := gets s; posts := posts s; chats := S (chats s); uuids := uuids s;
     trace := trace s ++ [EvChat OLLAMA_MODEL messages tools] |}.

Definition payload_of (tc : ToolCall) : json :=
  call_payload (fn_name (tc_function tc)) (fn_arguments (tc_function tc)).

(** [tool_call.get("tool_name")] *)
Definition requested_name (tool_call : list (string * json)) : json :=
  match dict_get "tool_name" tool_call with
  | Some v => v
  | None => JNull
  end.

(** Conformance of arguments to a parameter schema, for the keywords the
    registry's schemas use: [type: object] and [required].  (Any fuller
    reading of JSON Schema accepts no more than this one.) *)
Definition required_keys (schema : list (string * json)) : list json :=
  match dict_get "required" schema with
  | Some (JArr ks) => ks
  | _ => []
  end.

Definition conforms_to (schema : json) (arguments : json) : bool :=
  match schema with
  | JObj kws =>
      match dict_get "type" kws with
      | Some (JStr "object") =>
          match arguments with
          | JObj args =>
              forallb (fun k => match k with
                                | JStr key => dict_has key args
                                | _ => true
                                end) (required_keys kws)
          | _ => false
          end
      | _ => true
      end
  | _ => true
  end.

(** The shape of an ISO 8601 timestamp in UTC written with [Z]:
    [YYYY-MM-DDTHH:MM:SS], an optional fraction, [Z].  Only the shape is
    checked, not the ranges of the fields. *)
Inductive CharClass : Type :=
| Digit
| Lit (c : ascii).

Definition is_digit (a : ascii) : bool :=
  let n := nat_of_ascii a in ((48 <=? n) && (n <=? 57))%nat.

Definition in_class (c : CharClass) (a : ascii) : bool :=
  match c with
  | Digit => is_digit a
  | Lit x => Ascii.eqb a x
  end.

Fixpoint match_prefix (pattern : list CharClass) (s : list ascii) : option (list ascii) :=
  match pattern, s with
  | [], _ => Some s
  | c :: pattern', a :: s' => if in_class c a then match_prefix pattern' s' else None
  | _ :: _, [] => None
  end.

Definition date_time_pattern : list CharClass :=
  [Digit; Digit; Digit; Digit; Lit "-"; Digit; Digit; Lit "-"; Digit; Digit; Lit "T";
   Digit; Digit; Lit ":"; Digit; Digit; Lit ":"; Digit; Digit]%char.

Definition only_Z (s : list ascii) : bool :=
  match s with
  | [z] => Ascii.eqb z "Z"
  | _ => false
  end.

Fixpoint digits_then_Z (s : list ascii) : bool :=
  match s with
  | [] => false
  | a :: rest => is_digit a && (only_Z rest || digits_then_Z rest)
  end.

Definition fraction_then_Z (s : list ascii) : bool :=
  match s with
  | dot :: frac => Ascii.eqb dot "." && digits_then_Z frac
  | [] => false
  end.

Definition is_iso8601_utc_z (s : string) : bool :=
  match match_prefix date_time_pattern (list_ascii_of_string s) with
  | Some rest => only_Z rest || fraction_then_Z rest
  | None => false
  end.

End Protocol.

(** ** Environments of the scenarios *)

Module Scenario.
Import Server Client Protocol.

Definition ok (v : json) (u : string) : HttpReply :=
  HttpAnswers {| status_code := 200; reason := "OK"; url := u; body := Json v |}.

Definition text (t : string) : ChatReply :=
  ChatAnswers {| message := {| content := t; tool_calls := None |} |}.

Definition intent (i : option string) (name : string) (args : json) : ToolCall :=
  {| tc_id := i; tc_function := {| fn_name := name; fn_arguments := args |} |}.

Definition intents (l : list ToolCall) : ChatReply :=
  ChatAnswers {| message := {| content := ""; tool_calls := Some l |} |}.

Definition uuid_of (k : nat) : string := "uuid-" ++ str_of_nat k.

Definition noon : datetime :=
  {| year := 2024; month := 5; day := 17; hour := 12; minute := 0; second := 0;
     microsecond := 0 |}.

(** The registry of this repository behind the two endpoints; FastAPI
    answers 422 to a body that is not a dict. *)
Definition registry_post (u : string) (payload : json) : HttpReply :=
  match payload with
  | JObj d => ok (call_tool noon d) u
  | _ => HttpAnswers {| status_code := 422; reason := "Unprocessable Entity"; url := u;
                        body := Json (JObj [("detail", JStr "Input should be a valid dictionary")]) |}
  end.

Definition with_registry (chat : nat -> ChatReply) : Env :=
  {| requests_get_reply := fun _ u => ok get_tools_definition u;
     requests_post_reply := fun _ u payload => registry_post u payload;
     ollama_chat_reply := fun k _ _ => chat k;
     uuid4_str := uuid_of |}.

(** Scenario A: one intent for [get_current_time], then the final text. *)
Definition scenario_A : Env :=
  with_registry (fun k => match k with
                          | O => intents [intent None "get_current_time" (JObj [])]
                          | _ => text "It is noon."
                          end).

(** Scenario B: discovery is refused. *)
Definition scenario_B : Env :=
  {| requests_get_reply := fun _ _ => HttpRaises "Connection refused";
     requests_post_reply := fun _ _ _ => HttpRaises "Connection refused";
     ollama_chat_reply := fun _ _ _ => text "I cannot tell the time.";
     uuid4_str := uuid_of |}.

(** Scenario C: the model asks for a tool the registry does not have. *)
Definition scenario_C : Env :=
  with_registry (fun k => match k with
                          | O => intents [intent (Some "call_1") "delete_universe" (JObj [])]
                          | _ => text "That tool does not exist."
                          end).

(** A registry that publishes no tool. *)
Definition no_tools : Env :=
  {| requests_get_reply := fun _ u => ok (JObj [("tools", JArr [])]) u;
     requests_post_reply := fun _ u payload => registry_post u payload;
     ollama_chat_reply := fun _ _ _ => text "Hello.";
     uuid4_str := uuid_of |}.

(** A server whose answer to a call has neither [output] nor [error]. *)
Definition bare_answer : Env :=
  {| requests_get_reply := fun _ u => ok get_tools_definition u;
     requests_post_reply := fun _ u _ => ok (JObj [("tool_name", JStr "get_current_time")]) u;
     ollama_chat_reply := fun k _ _ =>
       match k with
       | O => intents [intent (Some "call_1") "get_current_time" (JObj [])]
       | _ => text "It is noon."
       end;
     uuid4_str := uuid_of |}.

(** A server that is up for discovery and answers 503 to every call. *)
Definition unavailable : Env :=
  {| requests_get_reply := fun _ u => ok get_tools_definition u;
     requests_post_reply := fun _ u _ =>
       HttpAnswers {| status_code := 503; reason := "Service Unavailable"; url := u;
                      body := NotJson "Expecting value: line 1 column 1 (char 0)" |};
     ollama_chat_reply := fun k _ _ =>
       match k with
       | O => intents [intent None "get_current_time" (JObj []);
                       intent None "get_current_time" (JObj [])]
       | _ => text "The clock is unavailable."
       end;
     uuid4_str := uuid_of |}.

(** A model that asks for the time at every turn. *)
Definition runaway : Env :=
  with_registry (fun _ => intents [intent None "get_current_time" (JObj [])]).

End Scenario.

(** ** The two programs together *)

Module Deployment.
Import Server Client Protocol.

(** The client facing the registry of this repository: [GET /mcp/v1/tools]
    is answered by [get_tools_definition], the k-th [POST /mcp/v1/call] by
    [call_tool] on the dict of the body, with the clock read at that call;
    FastAPI answers 422 to a body that is not a dict.  The model and
    [uuid4] stay free. *)
Definition tools_endpoint (u : string) : HttpReply :=
  HttpAnswers {| status_code := 200; reason := "OK"; url := u;
                 body := Json get_tools_definition |}.

Definition call_endpoint (now : datetime) (u : string) (payload : json) : HttpReply :=
  match payload with
  | JObj d => HttpAnswers {| status_code := 200; reason := "OK"; url := u;
                             body := Json (call_tool now d) |}
  | _ => HttpAnswers {| status_code := 422; reason := "Unprocessable Entity"; url := u;
                        body := Json (JObj [("detail", JStr "Input should be a valid dictionary")]) |}
  end.

Definition registry_env (clock : nat -> datetime)
    (chat : nat -> list Message -> option json -> ChatReply)
    (uuid : nat -> string) : Env :=
  {| requests_get_reply := fun _ u => tools_endpoint u;
     requests_post_reply := fun k u payload => call_endpoint (clock k) u payload;
     ollama_chat_reply := chat;
     uuid4_str := uuid |}.

(** The list under [tools] in what the registry publishes. *)
Definition published_tools : json :=
  match get_tools_definition with
  | JObj d => match dict_get "tools" d with Some v => v | None => JArr [] end
  | _ => JArr []
  end.

(** The conversation an outcome holds. *)
Definition messages_of (o : Outcome) : list Message :=
  match o with
  | Answered _ messages => messages
  | Running messages => messages
  end.

(** The calls the for loop makes for a list of intents when [u]
    identifiers have been drawn before: for each intent in turn, one
    identifier and one POST of its payload. *)
Fixpoint turn_events (env : Env) (u : nat) (tcs : list ToolCall) : list Event :=
  match tcs with
  | [] => []
  | tc :: rest =>
      EvUuid (uuid4_str env u) :: EvPost call_url (payload_of tc)
        :: turn_events env (S u) rest
  end.

Definition is_dict (v : json) : bool :=
  match v with JObj _ => true | _ => false end.

(** [d.get("tools", [])] on the items of the body of discovery. *)
Definition tools_of (d : list (string * json)) : json :=
  match dict_get "tools" d with
  | Some v => v
  | None => JArr []
  end.

(** A response that [raise_for_status] lets through, with a JSON body. *)
Definition answers_json (rep : HttpReply) (v : json) : Prop :=
  exists r, rep = HttpAnswers r /\ transport_failure rep = None /\ body r = Json v.

(** What discovery gives for the answer to its GET. *)
Definition discovery_result (rep : HttpReply) : result json :=
  match rep with
  | HttpRaises _ => inr (JArr [])
  | HttpAnswers r =>
      match transport_failure rep with
      | Some _ => inr (JArr [])
      | None =>
          match body r with
          | NotJson _ => inr (JArr [])
          | Json v => py_get v "tools" (JArr [])
          end
      end
  end.

End Deployment.

(** ** Further environments *)

Module Cases.
Import Server Client Protocol Deployment.

Definition always (rep : HttpReply) (chat : ChatReply) : Env :=
  {| requests_get_reply := fun _ _ => rep;
     requests_post_reply := fun _ _ _ => rep;
     ollama_chat_reply := fun _ _ _ => chat;
     uuid4_str := Scenario.uuid_of |}.

(** Discovery answered with [{"tools": null}]. *)
Definition null_tools : Env :=
  always (Scenario.ok (JObj [("tools", JNull)]) tools_url) (Scenario.text "Hello.").

(** Discovery answered with a body without the key [tools]. *)
Definition no_tools_key : Env :=
  always (Scenario.ok (JObj [("status", JStr "ok")]) tools_url) (Scenario.text "Hello.").

(** Every request answered with a JSON list. *)
Definition list_body : Env :=
  always (Scenario.ok (JArr [JStr "error"; JInt 2]) tools_url) (Scenario.text "Hello.").

(** The registry, and a model that answers with text at once. *)
Definition plain_answer : Env :=
  registry_env (fun _ => Scenario.noon)
    (fun _ _ _ => Scenario.text "Once upon a time.") Scenario.uuid_of.

(** The registry, and a model that is down. *)
Definition model_down : Env :=
  registry_env (fun _ => Scenario.noon)
    (fun _ _ _ => ChatRaises "connection refused") Scenario.uuid_of.

(** The registry, a clock that ticks one second per call, and a model that
    asks twice in its first turn (once with an id of its own) and answers
    in its second. *)
Definition ticking (k : nat) : datetime :=
  {| year := 2024; month := 5; day := 17; hour := 12; minute := 0; second := k;
     microsecond := 0 |}.

Definition two_intents : list ToolCall :=
  [Scenario.intent (Some "call_7") "get_current_time" (JObj []);
   Scenario.intent None "delete_universe" (JObj [("force", JBool true)])].

Definition two_calls : Env :=
  registry_env ticking
    (fun k _ _ => match k with
                  | O => Scenario.intents two_intents
                  | _ => Scenario.text "Done."
                  end)
    Scenario.uuid_of.

(** The registry, except that the second POST is answered with a dict that
    has neither [output] nor [error]. *)
Definition second_bare : Env :=
  {| requests_get_reply := fun _ u => tools_endpoint u;
     requests_post_reply := fun k u payload =>
       match k with
       | 1 => Scenario.ok (JObj [("tool_name", JStr "get_current_time")]) u
       | _ => call_endpoint Scenario.noon u payload
       end;
     ollama_chat_reply := fun _ _ _ => Scenario.text "Hello.";
     uuid4_str := Scenario.uuid_of |}.

(** A server that answers every call with a page that is not JSON. *)
Definition html_page : Env :=
  always (HttpAnswers {| status_code := 200; reason := "OK"; url := call_url;
                         body := NotJson "Expecting value: line 1 column 1 (char 0)" |})
         (Scenario.text "Hello.").

Definition three_intents : list ToolCall :=
  [Scenario.intent None "get_current_time" (JObj []);
   Scenario.intent None "get_current_time" (JObj []);
   Scenario.intent None "get_current_time" (JObj [])].

End Cases.

(** * Properties *)

Import Server Client Protocol.
Local Open Scope list_scope.

(** ** The invoker *)

Section Invoker.

Variable env : Env.

Lemma raise_for_status_failure (r : Response) :
  match transport_failure (HttpAnswers r) with
  | Some e => raise_for_status r = inl (RequestException e)
  | None => raise_for_status r = inr tt
  end.
Proof.
  unfold transport_failure, raise_for_status.
  destruct ((400 <=? status_code r) && (status_code r <? 500))%Z; [reflexivity|].
  destruct ((500 <=? status_code r) && (status_code r <? 600))%Z; reflexivity.
Qed.

(** [call_mcp_server_tool] always returns, and what it returns is
    [invoke_result] of the POST it makes. *)
Lemma call_mcp_server_tool_run (tool_name : string) (arguments : json) (s : Proc) :
  call_mcp_server_tool env tool_name arguments s
  = (inr (invoke_result env (posts s) tool_name arguments),
     posted s (call_payload tool_name arguments)).
Proof.
  unfold call_mcp_server_tool, try_except_RequestException, bind, requests_post,
    invoke_result, lift, ret.
  fold call_url. fold (posted s (call_payload tool_name arguments)).
  destruct (requests_post_reply env (posts s) call_url (call_payload tool_name arguments))
    as [msg | r] eqn:Hrep.
  - reflexivity.
  - pose proof (raise_for_status_failure r) as Hst.
    destruct (transport_failure (HttpAnswers r)) as [e|]; rewrite Hst.
    + reflexivity.
    + unfold response_json. destruct (body r); reflexivity.
Qed.

Lemma transport_failure_result (k : nat) (tool_name : string) (arguments : json) (e : string) :
  transport_failure (requests_post_reply env k call_url (call_payload tool_name arguments))
    = Some e ->
  invoke_result env k tool_name arguments = Err tool_name e.
Proof.
  intros H. unfold invoke_result. rewrite H. reflexivity.
Qed.

(** Discovery under a transport failure. *)
Lemma get_mcp_tool_definitions_failure (s : Proc) (e : string) :
  transport_failure (requests_get_reply env (gets s) tools_url) = Some e ->
  get_mcp_tool_definitions env s = (inr (JArr []), fetched s).
Proof.
  intros H.
  unfold get_mcp_tool_definitions, try_except_RequestException, bind, requests_get, lift, ret.
  fold tools_url. fold (fetched s).
  destruct (requests_get_reply env (gets s) tools_url) as [msg | r].
  - reflexivity.
  - pose proof (raise_for_status_failure r) as Hst. rewrite H in Hst.
    rewrite Hst. reflexivity.
Qed.

Lemma get_mcp_tool_definitions_empty (s : Proc) :
  empty_tool_list (requests_get_reply env (gets s) tools_url) ->
  get_mcp_tool_definitions env s = (inr (JArr []), fetched s).
Proof.
  intros (r & d & Hrep & Hok & Hbody & Htools).
  unfold get_mcp_tool_definitions, try_except_RequestException, bind, requests_get, lift, ret.
  fold tools_url. fold (fetched s). rewrite Hrep in *.
  pose proof (raise_for_status_failure r) as Hst. rewrite Hok in Hst. rewrite Hst.
  unfold response_json. rewrite Hbody. simpl. rewrite Htools. reflexivity.
Qed.

End Invoker.

(** ** The orchestrator *)

Section Orchestrator.

Variable env : Env.

Lemma tool_message_error (i : string) (d : list (string * json)) (e : json) :
  dict_get "error" d = Some e ->
  tool_message i (JObj d) = inr (Tool i (json_dumps (JObj [("error", e)]))).
Proof.
  intros H. unfold tool_message, py_in, py_getitem, dict_has. rewrite H. reflexivity.
Qed.

Lemma tool_message_output (i : string) (d : list (string * json)) (o : json) :
  dict_get "error" d = None -> dict_get "output" d = Some o ->
  tool_message i (JObj d) = inr (Tool i (json_dumps o)).
Proof.
  intros He Ho. unfold tool_message, py_in, py_getitem, dict_has. rewrite He, Ho.
  reflexivity.
Qed.

Lemma tool_message_neither (i : string) (d : list (string * json)) :
  dict_get "error" d = None -> dict_get "output" d = None ->
  tool_message i (JObj d) = inl (KeyError "output").
Proof.
  intros He Ho. unfold tool_message, py_in, py_getitem, dict_has. rewrite He, Ho.
  reflexivity.
Qed.

Lemma tool_message_well_shaped (i : string) (out : json) :
  well_shaped out = true -> exists c, tool_message i out = inr (Tool i c).
Proof.
  destruct out as [| | | | | |d]; try discriminate. simpl. intros H.
  destruct (dict_get "error" d) as [e|] eqn:He.
  - eexists. apply tool_message_error, He.
  - unfold dict_has in H. rewrite He in H. simpl in H.
    destruct (dict_get "output" d) as [o|] eqn:Ho; [|discriminate].
    eexists. apply tool_message_output; eassumption.
Qed.

(** One pass through the body of the for loop. *)
Lemma handle_tool_call_run (tc : ToolCall) (messages : list Message) (s : Proc) :
  handle_tool_call env tc messages s
  = match tool_message (call_id_of env (uuids s) tc) (result_of env (posts s) tc) with
    | inr m => (inr (messages ++ [m]), posted (drawn env s) (payload_of tc))
    | inl e => (inl e, posted (drawn env s) (payload_of tc))
    end.
Proof.
  unfold handle_tool_call, bind at 1. unfold uuid4. fold (drawn env s).
  unfold bind at 1. rewrite call_mcp_server_tool_run.
  unfold bind, lift, ret, call_id_of, result_of, payload_of. simpl.
  destruct (tool_message _ _); reflexivity.
Qed.

(** The for loop over intents whose results are all well shaped: it runs
    to its end, calls neither the model nor discovery, and appends the
    Tool message of each intent, in order. *)
Lemma dispatch_tools_run (tcs : list ToolCall) :
  forall (messages : list Message) (s : Proc),
    (forall i tc, nth_error tcs i = Some tc ->
                  well_shaped (result_of env (posts s + i) tc) = true) ->
    exists tool_messages s',
      dispatch_tools env tcs messages s = (inr (messages ++ tool_messages), s')
      /\ chats s' = chats s /\ gets s' = gets s
      /\ posts s' = posts s + List.length tcs /\ uuids s' = uuids s + List.length tcs
      /\ List.length tool_messages = List.length tcs
      /\ forall i tc, nth_error tcs i = Some tc ->
           exists m, tool_message (call_id_of env (uuids s + i) tc)
                                  (result_of env (posts s + i) tc) = inr m
                     /\ nth_error tool_messages i = Some m.
Proof.
  induction tcs as [|tc rest IH]; intros messages s Hshape.
  - exists [], s. simpl. rewrite app_nil_r.
    repeat split; try lia. intros [|i] tc'; discriminate.
  - assert (H0 := Hshape 0 tc eq_refl). rewrite Nat.add_0_r in H0.
    destruct (tool_message_well_shaped (call_id_of env (uuids s) tc) _ H0) as [c Hc].
    simpl. unfold bind at 1. rewrite handle_tool_call_run, Hc.
    set (s1 := posted (drawn env s) (payload_of tc)).
    destruct (IH (messages ++ [Tool (call_id_of env (uuids s) tc) c]) s1)
      as (tms & s' & Hrun & Hch & Hg & Hp & Hu & Hlen & Hnth).
    { intros i tc' Hi. specialize (Hshape (S i) tc' Hi).
      simpl. rewrite <- plus_n_Sm in Hshape. exact Hshape. }
    exists (Tool (call_id_of env (uuids s) tc) c :: tms), s'.
    rewrite Hrun, <- app_assoc. simpl in *.
    repeat split; try lia.
    intros [|i] tc' Hi; simpl in Hi.
    + injection Hi as <-. rewrite !Nat.add_0_r. eauto.
    + destruct (Hnth i tc' Hi) as (m & Hm & Hn).
      exists m. rewrite <- !plus_n_Sm. auto.
Qed.

End Orchestrator.

(** ** Turns of the loop *)

Section Turns.

Variable env : Env.

(** A turn whose answer holds intents runs the for loop on them. *)
Lemma loop_body_dispatch (defs : json) (messages : list Message) (s : Proc)
    (r : ChatResponse) :
  ollama_chat_reply env (chats s) messages (Some defs) = ChatAnswers r ->
  requested (tool_calls (message r)) <> [] ->
  loop_body env defs messages s
  = match dispatch_tools env (requested (tool_calls (message r))) messages
            (asked s messages (Some defs)) with
    | (inr messages', s') => (inr (Continue messages'), s')
    | (inl e, s') => (inl e, s')
    end.
Proof.
  intros Hrep Hne. unfold loop_body, bind at 1, ollama_chat.
  fold (asked s messages (Some defs)). rewrite Hrep.
  destruct (requested (tool_calls (message r))) as [|tc rest] eqn:Hreq;
    [congruence|].
  unfold bind, ret.
  destruct (dispatch_tools env (tc :: rest) messages (asked s messages (Some defs)))
    as [[e|m] s']; reflexivity.
Qed.

(** A turn whose answer holds no intent breaks the loop with its text. *)
Lemma loop_body_break (defs : json) (messages : list Message) (s : Proc)
    (r : ChatResponse) :
  ollama_chat_reply env (chats s) messages (Some defs) = ChatAnswers r ->
  requested (tool_calls (message r)) = [] ->
  loop_body env defs messages s
  = (inr (Break (content (message r))), asked s messages (Some defs)).
Proof.
  intros Hrep Hreq. unfold loop_body, bind, ollama_chat.
  fold (asked s messages (Some defs)). rewrite Hrep, Hreq. reflexivity.
Qed.

(** A turn with intents whose results are all well shaped: one model call,
    then the for loop, which hands the extended conversation to the next
    pass. *)
Lemma loop_body_continue (defs : json) (messages : list Message) (s : Proc)
    (r : ChatResponse) :
  ollama_chat_reply env (chats s) messages (Some defs) = ChatAnswers r ->
  requested (tool_calls (message r)) <> [] ->
  (forall i tc, nth_error (requested (tool_calls (message r))) i = Some tc ->
                well_shaped (result_of env (posts s + i) tc) = true) ->
  exists tool_messages s',
    loop_body env defs messages s = (inr (Continue (messages ++ tool_messages)), s')
    /\ chats s' = S (chats s)
    /\ posts s' = posts s + List.length (requested (tool_calls (message r)))
    /\ uuids s' = uuids s + List.length (requested (tool_calls (message r)))
    /\ List.length tool_messages = List.length (requested (tool_calls (message r)))
    /\ forall i tc, nth_error (requested (tool_calls (message r))) i = Some tc ->
         exists m, tool_message (call_id_of env (uuids s + i) tc)
                                (result_of env (posts s + i) tc) = inr m
                   /\ nth_error tool_messages i = Some m.
Proof.
  intros Hrep Hne Hshape.
  destruct (dispatch_tools_run env (requested (tool_calls (message r))) messages
              (asked s messages (Some defs)) Hshape)
    as (tms & s' & Hrun & Hch & Hg & Hp & Hu & Hlen & Hnth).
  exists tms, s'. rewrite (loop_body_dispatch defs messages s r Hrep Hne), Hrun.
  simpl in *. repeat split; auto.
Qed.

Lemma while_true_step (fuel : nat) (defs : json) (messages messages' : list Message)
    (s s' : Proc) :
  loop_body env defs messages s = (inr (Continue messages'), s') ->
  while_true env (S fuel) defs messages s = while_true env fuel defs messages' s'.
Proof.
  intros H. simpl. unfold bind. rewrite H. reflexivity.
Qed.

Lemma while_true_break (fuel : nat) (defs : json) (messages : list Message)
    (s s' : Proc) (text : string) :
  loop_body env defs messages s = (inr (Break text), s') ->
  while_true env (S fuel) defs messages s = (inr (Answered text messages), s').
Proof.
  intros H. simpl. unfold bind. rewrite H. reflexivity.
Qed.

(** With a model that asks for tools at every turn and results that are
    always well shaped, the loop is still going after any number of
    passes, each of which called the model once. *)
Lemma while_true_keeps_running (defs : json) :
  (forall k messages, exists r,
      ollama_chat_reply env k messages (Some defs) = ChatAnswers r
      /\ requested (tool_calls (message r)) <> []) ->
  (forall k tc, well_shaped (result_of env k tc) = true) ->
  forall fuel messages s,
    exists messages' s',
      while_true env fuel defs messages s = (inr (Running messages'), s')
      /\ chats s' = chats s + fuel.
Proof.
  intros Hmodel Hshape. induction fuel as [|fuel IH]; intros messages s.
  - exists messages, s. simpl. split; [reflexivity | lia].
  - destruct (Hmodel (chats s) messages) as (r & Hrep & Hne).
    destruct (loop_body_continue defs messages s r Hrep Hne)
      as (tms & s1 & Hbody & Hch & _).
    { intros i tc _. apply Hshape. }
    destruct (IH (messages ++ tms) s1) as (m' & s' & Hrun & Hch').
    exists m', s'. rewrite (while_true_step fuel defs _ _ _ _ Hbody), Hrun.
    split; [reflexivity | lia].
Qed.

End Turns.

(** ** Claims on the orchestrator *)

(** C1 (as amended).  In a model turn whose answer holds N intents, each of
    them answered by a result shaped as the wire protocol says (a dict with
    [error] or [output]), the orchestrator appends exactly N Tool messages
    and nothing else before the next pass of the loop calls the model
    again: the i-th message is the one built from the result of the i-th
    intent and carries the id of that intent, or the identifier drawn for
    it when the intent has none; when the identifiers [uuid4] gives during
    the turn are distinct, so are the synthesized ids. *)
Theorem C1_one_tool_message_per_intent
    (env : Env) (defs : json) (messages : list Message) (s : Proc) (r : ChatResponse) :
  ollama_chat_reply env (chats s) messages (Some defs) = ChatAnswers r ->
  requested (tool_calls (message r)) <> [] ->
  (forall i tc, nth_error (requested (tool_calls (message r))) i = Some tc ->
                well_shaped (result_of env (posts s + i) tc) = true) ->
  (forall i j, i < j < List.length (requested (tool_calls (message r))) ->
               uuid4_str env (uuids s + i) <> uuid4_str env (uuids s + j)) ->
  exists tool_messages s',
    loop_body env defs messages s = (inr (Continue (messages ++ tool_messages)), s')
    /\ (forall fuel, while_true env (S fuel) defs messages s
                     = while_true env fuel defs (messages ++ tool_messages) s')
    /\ chats s' = S (chats s)
    /\ List.length tool_messages = List.length (requested (tool_calls (message r)))
    /\ (forall i tc, nth_error (requested (tool_calls (message r))) i = Some tc ->
          exists c, nth_error tool_messages i
                    = Some (Tool (call_id_of env (uuids s + i) tc) c)
                    /\ (forall x, tc_id tc = Some x -> call_id_of env (uuids s + i) tc = x))
    /\ (forall i j tci tcj c,
          i <> j ->
          nth_error (requested (tool_calls (message r))) i = Some tci ->
          nth_error (requested (tool_calls (message r))) j = Some tcj ->
          tc_id tci = None -> tc_id tcj = None ->
          nth_error tool_messages i = Some (Tool (call_id_of env (uuids s + i) tci) c) ->
          forall c', nth_error tool_messages j
                     <> Some (Tool (call_id_of env (uuids s + i) tci) c')).
Proof.
  intros Hrep Hne Hshape Huniq.
  destruct (loop_body_continue env defs messages s r Hrep Hne Hshape)
    as (tms & s' & Hbody & Hch & Hp & Hu & Hlen & Hnth).
  exists tms, s'. repeat split; auto.
  - intros fuel. apply while_true_step, Hbody.
  - intros i tc Hi. destruct (Hnth i tc Hi) as (m & Hm & Hn).
    destruct (tool_message_well_shaped (call_id_of env (uuids s + i) tc) _
                (Hshape i tc Hi)) as [c Hc].
    exists c. split.
    + rewrite Hn. congruence.
    + intros x Hx. unfold call_id_of. rewrite Hx. reflexivity.
  - intros i j tci tcj c Hij Hi Hj Hni Hnj Hmi c' Hmj.
    destruct (Hnth j tcj Hj) as (m & Hm & Hn).
    destruct (tool_message_well_shaped (call_id_of env (uuids s + j) tcj) _
                (Hshape j tcj Hj)) as [cj Hcj].
    rewrite Hcj in Hm. injection Hm as <-. rewrite Hn in Hmj.
    injection Hmj as Hid _. unfold call_id_of in Hid. rewrite Hni, Hnj in Hid.
    assert (Hli : i < List.length (requested (tool_calls (message r))))
      by (apply nth_error_Some; congruence).
    assert (Hlj : j < List.length (requested (tool_calls (message r))))
      by (apply nth_error_Some; congruence).
    destruct (Nat.lt_total i j) as [Hlt | [Heq | Hgt]].
    + apply (Huniq i j); [lia | congruence].
    + contradiction.
    + apply (Huniq j i); [lia | congruence].
Qed.

(** C1, witness: two intents without ids met by a server that answers 503
    to every call. *)
Lemma C1_witness :
  exists tool_messages s',
    loop_body Scenario.unavailable (JArr []) [User "What time is it?"] start
    = (inr (Continue ([User "What time is it?"] ++ tool_messages)), s')
    /\ chats s' = 1
    /\ List.length tool_messages = 2.
Proof.
  destruct (C1_one_tool_message_per_intent Scenario.unavailable (JArr [])
              [User "What time is it?"] start
              {| message := {| content := "";
                               tool_calls := Some [Scenario.intent None "get_current_time" (JObj []);
                                                   Scenario.intent None "get_current_time" (JObj [])] |} |})
    as (tms & s' & Hbody & _ & Hch & Hlen & _).
  - reflexivity.
  - simpl. discriminate.
  - intros [|[|[|i]]] tc H; simpl in H; try discriminate;
      injection H as <-; reflexivity.
  - intros i j H. simpl in H.
    assert (i = 0) as -> by lia. assert (j = 1) as -> by lia.
    vm_compute. discriminate.
  - exists tms, s'. repeat split; assumption.
Defined.

(** C1 as stated fails: the model emits one intent, the server answers the
    call with a dict that has neither [output] nor [error], and the turn
    ends in [KeyError('output')]; no Tool message is appended and the
    model is not called again; the whole run of
    [chat_with_ollama_and_tools] ends in that exception. *)
Lemma C1_counterexample :
  ollama_chat_reply Scenario.bare_answer 0 [User "What time is it?"]
    (Some (JArr [JStr "get_current_time"]))
  = Scenario.intents [Scenario.intent (Some "call_1") "get_current_time" (JObj [])]
  /\ fst (loop_body Scenario.bare_answer (JArr [JStr "get_current_time"])
            [User "What time is it?"] start)
     = inl (KeyError "output")
  /\ ~ (exists tool_messages s',
          loop_body Scenario.bare_answer (JArr [JStr "get_current_time"])
            [User "What time is it?"] start
          = (inr (Continue ([User "What time is it?"] ++ tool_messages)), s')
          /\ List.length tool_messages = 1)
  /\ fst (chat_with_ollama_and_tools Scenario.bare_answer 5 "What time is it?" start)
     = inl (KeyError "output").
Proof.
  split; [reflexivity | split; [reflexivity | split; [| reflexivity]]].
  intros (tms & s' & H & _).
  apply (f_equal fst) in H. vm_compute in H. discriminate.
Qed.

(** C2.  When discovery fails (the request raises, or is answered 4xx or
    5xx) or yields the empty tool list, and the model answers the one call
    made to it, the orchestrator makes exactly that model call, without
    tool schemas and with the user prompt alone, posts no tool call,
    appends no Tool message and returns normally with the text of the
    model. *)
Theorem C2_degraded_path
    (env : Env) (fuel : nat) (user_prompt : string) (r : ChatResponse) :
  (exists e, transport_failure (requests_get_reply env 0 tools_url) = Some e)
  \/ empty_tool_list (requests_get_reply env 0 tools_url) ->
  ollama_chat_reply env 0 [User user_prompt] None = ChatAnswers r ->
  exists s',
    chat_with_ollama_and_tools env fuel user_prompt start
    = (inr (Answered (content (message r)) [User user_prompt]), s')
    /\ trace s' = [EvGet tools_url; EvChat OLLAMA_MODEL [User user_prompt] None]
    /\ chats s' = 1 /\ posts s' = 0
    /\ filter is_tool [User user_prompt] = [].
Proof.
  intros Hdisc Hrep.
  assert (Hdefs : get_mcp_tool_definitions env start = (inr (JArr []), fetched start)).
  { destruct Hdisc as [[e He] | Hempty].
    - apply (get_mcp_tool_definitions_failure env start e He).
    - apply (get_mcp_tool_definitions_empty env start Hempty). }
  exists (asked (fetched start) [User user_prompt] None).
  unfold chat_with_ollama_and_tools, bind at 1. rewrite Hdefs. simpl.
  unfold bind, ollama_chat. simpl. rewrite Hrep.
  repeat split; reflexivity.
Qed.

(** C2, witnesses: discovery refused (scenario B), and a registry that
    publishes no tool. *)
Lemma C2_witness :
  (exists s',
     chat_with_ollama_and_tools Scenario.scenario_B 3 "What time is it?" start
     = (inr (Answered "I cannot tell the time." [User "What time is it?"]), s')
     /\ chats s' = 1 /\ posts s' = 0)
  /\ (exists s',
        chat_with_ollama_and_tools Scenario.no_tools 3 "What time is it?" start
        = (inr (Answered "Hello." [User "What time is it?"]), s')
        /\ chats s' = 1 /\ posts s' = 0).
Proof.
  split.
  - destruct (C2_degraded_path Scenario.scenario_B 3 "What time is it?"
                {| message := {| content := "I cannot tell the time.";
                                 tool_calls := None |} |})
      as (s' & Hrun & _ & Hch & Hp & _).
    + left. exists "Connection refused". reflexivity.
    + reflexivity.
    + exists s'. repeat split; assumption.
  - destruct (C2_degraded_path Scenario.no_tools 3 "What time is it?"
                {| message := {| content := "Hello."; tool_calls := None |} |})
      as (s' & Hrun & _ & Hch & Hp & _).
    + right. eexists _, _. repeat split; reflexivity.
    + reflexivity.
    + exists s'. repeat split; assumption.
Defined.

(** C5.  A tool call whose result is an error (a dict with the key
    [error], which is what the registry returns for an unknown tool and
    what the invoker returns for a transport failure) makes the for loop
    append the Tool message whose content is [json.dumps] of
    [{"error": text}] and go on; in a turn whose other results are well
    shaped too, the model is called again with the extended conversation,
    and when it then answers with text the run ends with that text. *)
Theorem C5_tool_errors_are_fed_back
    (env : Env) (defs : json) (messages : list Message) (s : Proc) (r : ChatResponse) :
  (forall tc msgs s0 d e,
      result_of env (posts s0) tc = JObj d -> dict_get "error" d = Some e ->
      handle_tool_call env tc msgs s0
      = (inr (msgs ++ [Tool (call_id_of env (uuids s0) tc)
                         (json_dumps (JObj [("error", e)]))]),
         posted (drawn env s0) (payload_of tc)))
  /\ (ollama_chat_reply env (chats s) messages (Some defs) = ChatAnswers r ->
      requested (tool_calls (message r)) <> [] ->
      (forall i tc, nth_error (requested (tool_calls (message r))) i = Some tc ->
                    well_shaped (result_of env (posts s + i) tc) = true) ->
      exists tool_messages s',
        (forall fuel, while_true env (S fuel) defs messages s
                      = while_true env fuel defs (messages ++ tool_messages) s')
        /\ chats s' = S (chats s)
        /\ (forall i tc d e,
              nth_error (requested (tool_calls (message r))) i = Some tc ->
              result_of env (posts s + i) tc = JObj d -> dict_get "error" d = Some e ->
              nth_error tool_messages i
              = Some (Tool (call_id_of env (uuids s + i) tc)
                        (json_dumps (JObj [("error", e)]))))
        /\ (forall fuel r',
              ollama_chat_reply env (chats s') (messages ++ tool_messages) (Some defs)
              = ChatAnswers r' ->
              requested (tool_calls (message r')) = [] ->
              while_true env (S (S fuel)) defs messages s
              = (inr (Answered (content (message r')) (messages ++ tool_messages)),
                 asked s' (messages ++ tool_messages) (Some defs)))).
Proof.
  split.
  - intros tc msgs s0 d e Hres Herr.
    rewrite handle_tool_call_run, Hres, (tool_message_error _ d e Herr). reflexivity.
  - intros Hrep Hne Hshape.
    destruct (loop_body_continue env defs messages s r Hrep Hne Hshape)
      as (tms & s' & Hbody & Hch & Hp & Hu & Hlen & Hnth).
    exists tms, s'. repeat split; auto.
    + intros fuel. apply while_true_step, Hbody.
    + intros i tc d e Hi Hres Herr. destruct (Hnth i tc Hi) as (m & Hm & Hn).
      rewrite Hres, (tool_message_error _ d e Herr) in Hm. congruence.
    + intros fuel r' Hrep' Hreq'.
      rewrite (while_true_step env (S fuel) defs _ _ _ _ Hbody).
      apply while_true_break, loop_body_break; assumption.
Qed.

(** C5, witness: scenario C.  The model asks for [delete_universe], the
    registry answers with its error, the Tool message carries it, and the
    second model turn ends the conversation. *)
Lemma C5_witness :
  let defs := JArr [JStr "get_current_time"] in
  let messages := [User "Delete the universe."] in
  exists tool_messages s',
    while_true Scenario.scenario_C 2 defs messages start
    = (inr (Answered "That tool does not exist." (messages ++ tool_messages)), s')
    /\ nth_error tool_messages 0
       = Some (Tool "call_1"
                 (json_dumps (JObj [("error", JStr "Tool 'delete_universe' not found or supported by this server.")]))).
Proof.
  intros defs messages.
  destruct (C5_tool_errors_are_fed_back Scenario.scenario_C defs messages start
              {| message := {| content := "";
                               tool_calls := Some [Scenario.intent (Some "call_1")
                                                     "delete_universe" (JObj [])] |} |})
    as [_ Hturn].
  destruct Hturn as (tms & s' & _ & Hch & Hmsg & Hend).
  - reflexivity.
  - simpl. discriminate.
  - intros [|[|i]] tc H; simpl in H; try discriminate; injection H as <-; reflexivity.
  - exists tms. eexists. split.
    + apply (Hend 0 {| message := {| content := "That tool does not exist.";
                                     tool_calls := None |} |}).
      * simpl. rewrite Hch. reflexivity.
      * reflexivity.
    + apply (Hmsg 0 (Scenario.intent (Some "call_1") "delete_universe" (JObj []))
               [("tool_name", JStr "delete_universe");
                ("error", JStr "Tool 'delete_universe' not found or supported by this server.")]);
        reflexivity.
Defined.

(** What the registry of this repository answers is always well shaped. *)
Lemma call_tool_well_shaped (now : datetime) (d : list (string * json)) :
  well_shaped (call_tool now d) = true.
Proof.
  unfold call_tool.
  destruct (eq_str _ "get_current_time"); reflexivity.
Qed.

Lemma registry_results_well_shaped (chat : nat -> ChatReply) (k : nat) (tc : ToolCall) :
  well_shaped (result_of (Scenario.with_registry chat) k tc) = true.
Proof.
  unfold result_of, invoke_result. simpl. apply call_tool_well_shaped.
Qed.

(** C9 (as amended).  The loop has no turn limit: when discovery gave a
    non-empty tool list, the model asks for tools at every turn and the
    results are well shaped, then for every number of passes granted to
    the loop it is still running at the end of them, having called the
    model once in each; no outcome reports a limit. *)
Theorem C9_no_turn_limit
    (env : Env) (user_prompt : string) (defs : json) :
  get_mcp_tool_definitions env start = (inr defs, fetched start) ->
  truthy defs = true ->
  (forall k messages, exists r,
      ollama_chat_reply env k messages (Some defs) = ChatAnswers r
      /\ requested (tool_calls (message r)) <> []) ->
  (forall k tc, well_shaped (result_of env k tc) = true) ->
  forall fuel, exists messages' s',
    chat_with_ollama_and_tools env fuel user_prompt start
    = (inr (Running messages'), s')
    /\ chats s' = fuel.
Proof.
  intros Hdisc Htruthy Hmodel Hshape fuel.
  unfold chat_with_ollama_and_tools, bind at 1. rewrite Hdisc, Htruthy. simpl.
  destruct (while_true_keeps_running env defs Hmodel Hshape fuel
              [System (system_message_content defs); User user_prompt] (fetched start))
    as (m' & s' & Hrun & Hch).
  exists m', s'. split; [exact Hrun | exact Hch].
Qed.

(** C9, witness: the registry of the repository and a model that asks for
    the time at every turn; seven passes, seven model calls, still
    running. *)
Lemma C9_witness :
  exists messages' s',
    chat_with_ollama_and_tools Scenario.runaway 7 "What time is it?" start
    = (inr (Running messages'), s')
    /\ chats s' = 7.
Proof.
  apply (C9_no_turn_limit Scenario.runaway "What time is it?"
           (JArr [JObj [("name", JStr "get_current_time");
                        ("description", JStr "Get the current time in UTC. Useful for answering questions about the current time or date.");
                        ("parameters", get_current_time_parameters)]])).
  - reflexivity.
  - reflexivity.
  - intros k messages. eexists. split; [reflexivity | simpl; discriminate].
  - intros k tc. apply registry_results_well_shaped.
Defined.

(** C9 as stated fails: with the registry of the repository and a model
    that asks for the time at every turn, no limit bounds the number of
    model calls of the runs. *)
Lemma C9_counterexample :
  ~ (exists limit, forall fuel,
        chats (snd (chat_with_ollama_and_tools Scenario.runaway fuel
                      "What time is it?" start)) <= limit).
Proof.
  intros [limit H]. specialize (H (S limit)).
  assert (Hd : get_mcp_tool_definitions Scenario.runaway start
               = (inr (JArr [JObj [("name", JStr "get_current_time");
                                   ("description", JStr "Get the current time in UTC. Useful for answering questions about the current time or date.");
                                   ("parameters", get_current_time_parameters)]]),
                  fetched start)) by reflexivity.
  unfold chat_with_ollama_and_tools, bind at 1 in H. rewrite Hd in H.
  cbn [truthy negb] in H.
  match type of H with
  | context [while_true _ _ ?d ?m ?s0] =>
      assert (Hgo : exists m' s', while_true Scenario.runaway (S limit) d m s0
                                  = (inr (Running m'), s')
                                  /\ chats s' = chats s0 + S limit)
  end.
  { apply while_true_keeps_running.
    - intros k messages. eexists. split; [reflexivity | simpl; discriminate].
    - intros k tc. apply registry_results_well_shaped. }
  destruct Hgo as (m' & s' & Hrun & Hch).
  rewrite Hrun in H. simpl in H, Hch. lia.
Qed.

(** ** Claims on the invoker *)

(** C3.  [call_mcp_server_tool] returns a value for every call, and when
    the POST meets a transport failure (the request raises, or the
    response has a 4xx or 5xx status) that value is the in-band error
    result [{"tool_name": name, "error": text}] with the text of the
    failure, which the orchestrator takes as a tool failure. *)
Theorem C3_transport_failure_in_band
    (env : Env) (tool_name : string) (arguments : json) (s : Proc) :
  (exists out, call_mcp_server_tool env tool_name arguments s
               = (inr out, posted s (call_payload tool_name arguments)))
  /\ forall e,
       transport_failure
         (requests_post_reply env (posts s) call_url (call_payload tool_name arguments))
       = Some e ->
       call_mcp_server_tool env tool_name arguments s
       = (inr (Err tool_name e), posted s (call_payload tool_name arguments))
       /\ py_in "error" (Err tool_name e) = inr true
       /\ forall i, tool_message i (Err tool_name e)
                    = inr (Tool i (json_dumps (JObj [("error", JStr e)]))).
Proof.
  split.
  - eexists. apply call_mcp_server_tool_run.
  - intros e He. rewrite call_mcp_server_tool_run.
    rewrite (transport_failure_result env _ _ _ e He).
    repeat split; reflexivity.
Qed.

(** C3, witness: a server that answers 503. *)
Lemma C3_witness :
  call_mcp_server_tool Scenario.unavailable "get_current_time" (JObj []) start
  = (inr (Err "get_current_time"
            "503 Server Error: Service Unavailable for url: http://localhost:8001/mcp/v1/call"),
     posted start (call_payload "get_current_time" (JObj []))).
Proof.
  destruct (C3_transport_failure_in_band Scenario.unavailable "get_current_time"
              (JObj []) start) as [_ H].
  destruct (H "503 Server Error: Service Unavailable for url: http://localhost:8001/mcp/v1/call")
    as [Hrun _].
  - reflexivity.
  - exact Hrun.
Defined.

(** C6 (as amended).  On a transport failure during discovery
    [get_mcp_tool_definitions] does not raise: it returns the empty list,
    the very value it returns when the registry publishes no tool, so the
    caller is given nothing to tell the two apart. *)
Theorem C6_discovery_failure_returns_empty_list
    (env : Env) (s : Proc) (e : string) :
  transport_failure (requests_get_reply env (gets s) tools_url) = Some e ->
  get_mcp_tool_definitions env s = (inr (JArr []), fetched s)
  /\ forall env' s',
       empty_tool_list (requests_get_reply env' (gets s') tools_url) ->
       fst (get_mcp_tool_definitions env' s') = fst (get_mcp_tool_definitions env s).
Proof.
  intros He. split.
  - apply (get_mcp_tool_definitions_failure env s e He).
  - intros env' s' Hempty.
    rewrite (get_mcp_tool_definitions_empty env' s' Hempty).
    rewrite (get_mcp_tool_definitions_failure env s e He). reflexivity.
Qed.

(** C6, witness: discovery refused. *)
Lemma C6_witness :
  get_mcp_tool_definitions Scenario.scenario_B start = (inr (JArr []), fetched start).
Proof.
  apply (C6_discovery_failure_returns_empty_list Scenario.scenario_B start
           "Connection refused").
  reflexivity.
Defined.

(** C6 as stated fails: discovery that is refused and discovery of a
    registry without tools return the same value, so no test on the
    returned value separates the failure from the valid empty list. *)
Lemma C6_counterexample :
  transport_failure (requests_get_reply Scenario.scenario_B 0 tools_url)
  = Some "Connection refused"
  /\ empty_tool_list (requests_get_reply Scenario.no_tools 0 tools_url)
  /\ ~ (exists is_error : result json -> bool,
          is_error (fst (get_mcp_tool_definitions Scenario.scenario_B start)) = true
          /\ is_error (fst (get_mcp_tool_definitions Scenario.no_tools start)) = false).
Proof.
  split; [reflexivity | split].
  - eexists _, _. repeat split; reflexivity.
  - intros (is_error & Ht & Hf).
    change (fst (get_mcp_tool_definitions Scenario.no_tools start))
      with (fst (get_mcp_tool_definitions Scenario.scenario_B start)) in Hf.
    rewrite Ht in Hf. discriminate.
Qed.

(** ** The classification of results *)

(** C10.  For a result that is a dict, the test of the orchestrator is the
    presence of the key [error]: with it the Tool message carries
    [{"error": ...}] whether or not [output] is there too; without it the
    key [output] is read, and when that is missing as well the lookup
    raises [KeyError('output')] and the pass through the for loop ends
    there, with no Tool message appended. *)
Theorem C10_classification_by_error_key
    (env : Env) (d : list (string * json)) :
  py_in "error" (JObj d) = inr (dict_has "error" d)
  /\ (forall i e, dict_get "error" d = Some e ->
        tool_message i (JObj d) = inr (Tool i (json_dumps (JObj [("error", e)]))))
  /\ (forall i o, dict_get "error" d = None -> dict_get "output" d = Some o ->
        tool_message i (JObj d) = inr (Tool i (json_dumps o)))
  /\ (dict_get "error" d = None -> dict_get "output" d = None ->
        (forall i, tool_message i (JObj d) = inl (KeyError "output"))
        /\ forall tc messages s,
             result_of env (posts s) tc = JObj d ->
             handle_tool_call env tc messages s
             = (inl (KeyError "output"), posted (drawn env s) (payload_of tc))).
Proof.
  split; [reflexivity | split; [| split]].
  - intros i e He. apply tool_message_error, He.
  - intros i o He Ho. apply tool_message_output; assumption.
  - intros He Ho. split.
    + intros i. apply tool_message_neither; assumption.
    + intros tc messages s Hres.
      rewrite handle_tool_call_run, Hres, (tool_message_neither _ d He Ho).
      reflexivity.
Qed.

(** C10, witness: a result with both keys is a failure; a result with
    neither raises. *)
Lemma C10_witness :
  tool_message "call_1" (JObj [("output", JInt 1); ("error", JStr "boom")])
  = inr (Tool "call_1" (json_dumps (JObj [("error", JStr "boom")])))
  /\ handle_tool_call Scenario.bare_answer
       (Scenario.intent (Some "call_1") "get_current_time" (JObj [])) [] start
     = (inl (KeyError "output"),
        posted (drawn Scenario.bare_answer start)
          (call_payload "get_current_time" (JObj []))).
Proof.
  split.
  - destruct (C10_classification_by_error_key Scenario.bare_answer
                [("output", JInt 1); ("error", JStr "boom")]) as (_ & H & _).
    apply H. reflexivity.
  - destruct (C10_classification_by_error_key Scenario.bare_answer
                [("tool_name", JStr "get_current_time")]) as (_ & _ & _ & H).
    destruct H as [_ H]; [reflexivity | reflexivity |].
    apply (H (Scenario.intent (Some "call_1") "get_current_time" (JObj [])) [] start).
    reflexivity.
Defined.

(** ** Claims on the registry *)

Section Registry.

Variable now : datetime.

Lemma registered_get_current_time (v : json) :
  registered v = eq_str v "get_current_time".
Proof.
  unfold registered. simpl. apply orb_false_r.
Qed.

Lemma is_infix_app_r (sub a b : string) :
  is_infix sub b = true -> is_infix sub (a ++ b)%string = true.
Proof.
  intros H. induction a as [|c a IH]; simpl.
  - exact H.
  - rewrite IH. apply orb_true_r.
Qed.

(** The registry on [get_current_time], whatever else the request holds. *)
Lemma call_tool_get_current_time (tool_call : list (string * json)) :
  dict_get "tool_name" tool_call = Some (JStr "get_current_time") ->
  call_tool now tool_call
  = JObj [("tool_name", JStr "get_current_time");
          ("output", JObj [("current_time_utc", JStr (isoformat now ++ "Z")%string)])].
Proof.
  intros H. unfold call_tool. rewrite H. reflexivity.
Qed.

End Registry.

(** C4.  For a request whose [tool_name] is not a name the registry
    publishes (or is missing), [call_tool] returns the error result
    [{"tool_name": name, "error": "Tool 'name' not found or supported by
    this server."}]: a dict with the key [error] and without the key
    [output], whose text says [not found].  [call_tool] is a total
    function: no request makes it raise. *)
Theorem C4_unknown_tool_is_error
    (now : datetime) (tool_call : list (string * json)) :
  registered (requested_name tool_call) = false ->
  exists text,
    call_tool now tool_call
    = JObj [("tool_name", requested_name tool_call); ("error", JStr text)]
    /\ text = ("Tool '" ++ py_str (requested_name tool_call)
               ++ "' not found or supported by this server.")%string
    /\ is_infix "not found" text = true
    /\ is_error_result (call_tool now tool_call) = true
    /\ py_in "output" (call_tool now tool_call) = inr false.
Proof.
  intros H. rewrite registered_get_current_time in H.
  eexists. split; [| split; [reflexivity |]].
  - unfold call_tool. fold (requested_name tool_call). rewrite H. reflexivity.
  - unfold call_tool. fold (requested_name tool_call). rewrite H.
    repeat split; try reflexivity.
    change ("Tool '" ++ py_str (requested_name tool_call)
            ++ "' not found or supported by this server.")%string
      with (("Tool '" ++ py_str (requested_name tool_call))
            ++ "' not found or supported by this server.")%string.
    apply is_infix_app_r. reflexivity.
Qed.

(** C4, witness: [delete_universe]. *)
Lemma C4_witness :
  exists text,
    call_tool Scenario.noon [("tool_name", JStr "delete_universe"); ("arguments", JObj [])]
    = JObj [("tool_name", JStr "delete_universe"); ("error", JStr text)]
    /\ text = "Tool 'delete_universe' not found or supported by this server."%string.
Proof.
  destruct (C4_unknown_tool_is_error Scenario.noon
              [("tool_name", JStr "delete_universe"); ("arguments", JObj [])])
    as (text & Hcall & Htext & _).
  - reflexivity.
  - exists text. split; [exact Hcall | exact Htext].
Defined.

(** *** The timestamp *)

Lemma list_ascii_of_string_app (a b : string) :
  list_ascii_of_string (a ++ b)%string
  = list_ascii_of_string a ++ list_ascii_of_string b.
Proof.
  induction a as [|c a IH]; simpl; [reflexivity | now rewrite IH].
Qed.

(** A string of the shape [is_iso8601_utc_z] accepts holds no [+]. *)
Lemma match_prefix_plus (pattern : list CharClass) :
  Forall (fun c => in_class c "+"%char = false) pattern ->
  forall s rest, match_prefix pattern s = Some rest ->
                 In "+"%char s -> In "+"%char rest.
Proof.
  induction 1 as [|c pattern Hc _ IH]; intros s rest Hm Hin.
  - simpl in Hm. destruct s; injection Hm as <-; exact Hin.
  - destruct s as [|a s]; [discriminate|]. simpl in Hm.
    destruct (in_class c a) eqn:Ha; [|discriminate].
    apply (IH s rest Hm). destruct Hin as [-> | Hin]; [congruence | exact Hin].
Qed.

Lemma only_Z_plus (s : list ascii) : only_Z s = true -> ~ In "+"%char s.
Proof.
  destruct s as [|z [|y s]]; try discriminate. simpl. intros Hz [-> | []].
  discriminate.
Qed.

Lemma digits_then_Z_plus (s : list ascii) : digits_then_Z s = true -> ~ In "+"%char s.
Proof.
  induction s as [|a s IH]; [discriminate|]. simpl. intros H [-> | Hin].
  - discriminate.
  - apply andb_prop in H. destruct H as [_ H]. apply orb_prop in H.
    destruct H as [H | H]; [apply (only_Z_plus s H Hin) | apply (IH H Hin)].
Qed.

Lemma iso8601_utc_z_plus (s : string) :
  is_iso8601_utc_z s = true -> ~ In "+"%char (list_ascii_of_string s).
Proof.
  unfold is_iso8601_utc_z. intros H Hin.
  destruct (match_prefix date_time_pattern (list_ascii_of_string s)) as [rest|] eqn:Hm;
    [|discriminate].
  assert (Hrest : In "+"%char rest).
  { apply (match_prefix_plus date_time_pattern) with (s := list_ascii_of_string s);
      [| exact Hm | exact Hin].
    repeat constructor. }
  apply orb_prop in H. destruct H as [H | H].
  - apply (only_Z_plus rest H Hrest).
  - destruct rest as [|dot frac]; [discriminate|]. simpl in H.
    apply andb_prop in H. destruct H as [Hdot H].
    destruct Hrest as [-> | Hrest]; [discriminate|].
    apply (digits_then_Z_plus frac H Hrest).
Qed.

Lemma append_assoc (a b c : string) :
  (a ++ (b ++ c))%string = ((a ++ b) ++ c)%string.
Proof.
  induction a as [|x a IH]; simpl; [reflexivity | now rewrite IH].
Qed.

(** [isoformat] of an aware datetime ends with the offset. *)
Lemma isoformat_offset (d : datetime) :
  exists front, isoformat d = (front ++ "+00:00")%string.
Proof.
  unfold isoformat. eexists. rewrite !append_assoc. reflexivity.
Qed.

(** C7.  On [get_current_time] the registry returns the success result
    [{"tool_name": ..., "output": {"current_time_utc": s}}], and [s] ends
    in [Z]; but [s] is [isoformat()] of an aware datetime, which already
    ends with the offset [+00:00], followed by [Z]: for no reading of the
    clock is [s] of the shape of an ISO 8601 timestamp in UTC. *)
Theorem C7_timestamp_has_offset_and_Z (now : datetime) (arguments : json) :
  exists s,
    call_tool now [("tool_name", JStr "get_current_time"); ("arguments", arguments)]
    = JObj [("tool_name", JStr "get_current_time");
            ("output", JObj [("current_time_utc", JStr s)])]
    /\ (exists front, s = (front ++ "+00:00Z")%string)
    /\ is_iso8601_utc_z s = false.
Proof.
  exists (isoformat now ++ "Z")%string.
  destruct (isoformat_offset now) as [front Hfront].
  split; [| split].
  - apply call_tool_get_current_time. reflexivity.
  - exists front. rewrite Hfront, <- append_assoc. reflexivity.
  - destruct (is_iso8601_utc_z (isoformat now ++ "Z")) eqn:Hiso; [|reflexivity].
    exfalso. apply (iso8601_utc_z_plus _ Hiso).
    rewrite Hfront, !list_ascii_of_string_app. apply in_or_app. left.
    apply in_or_app. right. simpl. auto.
Qed.

(** C7 at noon of 17 May 2024. *)
Example C7_at_noon :
  call_tool Scenario.noon [("tool_name", JStr "get_current_time"); ("arguments", JObj [])]
  = JObj [("tool_name", JStr "get_current_time");
          ("output", JObj [("current_time_utc", JStr "2024-05-17T12:00:00+00:00Z")])]
  /\ is_iso8601_utc_z "2024-05-17T12:00:00+00:00Z" = false
  /\ is_iso8601_utc_z "2024-05-17T12:00:00Z" = true.
Proof.
  repeat split; reflexivity.
Qed.

(** C8 (as amended).  The registry does not look at the arguments: on
    [get_current_time] it runs the tool and returns the success result
    whatever the request holds under [arguments], conforming to the
    parameter schema or not. *)
Theorem C8_arguments_are_not_validated
    (now : datetime) (tool_call : list (string * json)) :
  dict_get "tool_name" tool_call = Some (JStr "get_current_time") ->
  call_tool now tool_call
  = JObj [("tool_name", JStr "get_current_time");
          ("output", JObj [("current_time_utc", JStr (isoformat now ++ "Z")%string)])]
  /\ is_error_result (call_tool now tool_call) = false
  /\ forall arguments,
       call_tool now [("tool_name", JStr "get_current_time"); ("arguments", arguments)]
       = call_tool now tool_call.
Proof.
  intros H. rewrite (call_tool_get_current_time now tool_call H).
  split; [reflexivity | split; [reflexivity |]].
  intros arguments. apply call_tool_get_current_time. reflexivity.
Qed.

(** C8, witness: arguments that are a string. *)
Lemma C8_witness :
  call_tool Scenario.noon
    [("tool_name", JStr "get_current_time"); ("arguments", JStr "now, please")]
  = JObj [("tool_name", JStr "get_current_time");
          ("output", JObj [("current_time_utc", JStr "2024-05-17T12:00:00+00:00Z")])].
Proof.
  destruct (C8_arguments_are_not_validated Scenario.noon
              [("tool_name", JStr "get_current_time"); ("arguments", JStr "now, please")])
    as [H _].
  - reflexivity.
  - exact H.
Defined.

(** C8 as stated fails: the schema of [get_current_time] asks for an
    object, the arguments are a string, and the registry answers with the
    output of the tool, not with an error. *)
Lemma C8_counterexample :
  registered (JStr "get_current_time") = true
  /\ conforms_to get_current_time_parameters (JStr "now, please") = false
  /\ is_error_result
       (call_tool Scenario.noon
          [("tool_name", JStr "get_current_time"); ("arguments", JStr "now, please")])
     = false
  /\ py_in "output"
       (call_tool Scenario.noon
          [("tool_name", JStr "get_current_time"); ("arguments", JStr "now, please")])
     = inr true.
Proof.
  repeat split; reflexivity.
Qed.

(** ** The scenarios of the specification *)

(** Scenario A: the Tool message carries the payload of the registry and
    the second model turn gives the final text. *)
Example scenario_A_run :
  exists system_message s',
    chat_with_ollama_and_tools Scenario.scenario_A 5 "What time is it?" start
    = (inr (Answered "It is noon."
              [system_message; User "What time is it?";
               Tool "uuid-0"
                 (json_dumps (JObj [("current_time_utc",
                                     JStr "2024-05-17T12:00:00+00:00Z")]))]),
       s')
    /\ chats s' = 2 /\ posts s' = 1.
Proof.
  eexists _, _. split; [lazy; reflexivity | split; reflexivity].
Qed.

(** Scenario C holds with the error of the registry as the content. *)
Example scenario_C_run :
  exists system_message s',
    chat_with_ollama_and_tools Scenario.scenario_C 5 "Delete the universe." start
    = (inr (Answered "That tool does not exist."
              [system_message; User "Delete the universe.";
               Tool "call_1"
                 (json_dumps (JObj [("error", JStr "Tool 'delete_universe' not found or supported by this server.")]))]),
       s')
    /\ chats s' = 2 /\ posts s' = 1.
Proof.
  eexists _, _. split; [lazy; reflexivity | split; reflexivity].
Qed.

(** * Further properties *)

Import Deployment.

(** ** Discovery *)

Lemma get_mcp_tool_definitions_run (env : Env) (s : Proc) :
  get_mcp_tool_definitions env s
  = (discovery_result (requests_get_reply env (gets s) tools_url), fetched s).
Proof.
  unfold get_mcp_tool_definitions, try_except_RequestException, bind, requests_get,
    lift, ret, discovery_result.
  fold tools_url. fold (fetched s).
  destruct (requests_get_reply env (gets s) tools_url) as [msg | r]; [reflexivity|].
  pose proof (raise_for_status_failure r) as Hst.
  destruct (transport_failure (HttpAnswers r)) as [e|]; rewrite Hst; [reflexivity|].
  unfold response_json. destruct (body r) as [msg | v]; [reflexivity|].
  destruct v; reflexivity.
Qed.

Lemma discovery_result_json (rep : HttpReply) (v : json) :
  answers_json rep v -> discovery_result rep = py_get v "tools" (JArr []).
Proof.
  intros (r & -> & Hok & Hbody). unfold discovery_result. rewrite Hok, Hbody.
  reflexivity.
Qed.

(** X1.  Discovery raises exactly when the GET is answered, outside 4xx
    and 5xx, with a JSON body that is not an object: the exception is the
    [AttributeError] of [.get] on that value, which the except clause does
    not catch.  In every other case it returns a value. *)
Theorem discovery_raises_iff_body_not_dict (env : Env) (s : Proc) :
  forall e,
    fst (get_mcp_tool_definitions env s) = inl e
    <-> exists v,
          answers_json (requests_get_reply env (gets s) tools_url) v
          /\ is_dict v = false
          /\ e = AttributeError ("'" ++ type_name v ++ "' object has no attribute 'get'")%string.
Proof.
  intros e. rewrite get_mcp_tool_definitions_run. simpl.
  split.
  - unfold discovery_result.
    destruct (requests_get_reply env (gets s) tools_url) as [msg | r] eqn:Hrep;
      [discriminate|].
    destruct (transport_failure (HttpAnswers r)) eqn:Hok; [discriminate|].
    destruct (body r) as [msg | v] eqn:Hbody; [discriminate|].
    intros H. exists v. split; [exists r; auto|].
    destruct v; simpl in H; try discriminate; injection H as <-; auto.
  - intros (v & Hv & Hd & ->). rewrite (discovery_result_json _ v Hv).
    destruct v; try discriminate; reflexivity.
Qed.



(** X3.  When discovery raises, [chat_with_ollama_and_tools] ends with the
    same [AttributeError] before any call to the model. *)
Theorem run_ends_on_body_not_dict
    (env : Env) (fuel : nat) (user_prompt : string) (v : json) :
  answers_json (requests_get_reply env 0 tools_url) v ->
  is_dict v = false ->
  chat_with_ollama_and_tools env fuel user_prompt start
  = (inl (AttributeError ("'" ++ type_name v ++ "' object has no attribute 'get'")%string),
     fetched start).
Proof.
  intros Hv Hd. unfold chat_with_ollama_and_tools, bind.
  rewrite get_mcp_tool_definitions_run. simpl gets.
  rewrite (discovery_result_json _ v Hv).
  destruct v; try discriminate; reflexivity.
Qed.

Lemma run_ends_on_body_not_dict_witness :
  chat_with_ollama_and_tools Cases.list_body 3 "What time is it?" start
  = (inl (AttributeError "'list' object has no attribute 'get'"), fetched start).
Proof.
  apply (run_ends_on_body_not_dict Cases.list_body 3 "What time is it?"
           (JArr [JStr "error"; JInt 2])).
  - eexists. repeat split; reflexivity.
  - reflexivity.
Defined.

(** X4.  A discovery body whose [tools] is missing, or is there with a
    false value ([null], [0], an empty string, list or dict), sends the
    orchestrator down the path without tools: one model call on the user
    prompt alone, no tool schemas, no POST. *)
Theorem falsy_tools_take_the_toolless_path
    (env : Env) (fuel : nat) (user_prompt : string)
    (d : list (string * json)) (r : ChatResponse) :
  answers_json (requests_get_reply env 0 tools_url) (JObj d) ->
  truthy (tools_of d) = false ->
  ollama_chat_reply env 0 [User user_prompt] None = ChatAnswers r ->
  chat_with_ollama_and_tools env fuel user_prompt start
  = (inr (Answered (content (message r)) [User user_prompt]),
     asked (fetched start) [User user_prompt] None).
Proof.
  intros Hv Hfalse Hrep. unfold chat_with_ollama_and_tools, bind at 1.
  rewrite get_mcp_tool_definitions_run. simpl gets.
  rewrite (discovery_result_json _ _ Hv).
  change (py_get (JObj d) "tools" (JArr [])) with (@inr exn json (tools_of d)).
  cbv beta iota. rewrite Hfalse. cbv beta iota zeta. unfold negb, bind, ollama_chat.
  simpl chats. rewrite Hrep. reflexivity.
Qed.

Lemma falsy_tools_take_the_toolless_path_witness :
  fst (chat_with_ollama_and_tools Cases.null_tools 3 "Hi" start)
  = inr (Answered "Hello." [User "Hi"])
  /\ fst (chat_with_ollama_and_tools Cases.no_tools_key 3 "Hi" start)
     = inr (Answered "Hello." [User "Hi"]).
Proof.
  split.
  - rewrite (falsy_tools_take_the_toolless_path Cases.null_tools 3 "Hi"
               [("tools", JNull)]
               {| message := {| content := "Hello."; tool_calls := None |} |}).
    + reflexivity.
    + eexists. repeat split; reflexivity.
    + reflexivity.
    + reflexivity.
  - rewrite (falsy_tools_take_the_toolless_path Cases.no_tools_key 3 "Hi"
               [("status", JStr "ok")]
               {| message := {| content := "Hello."; tool_calls := None |} |}).
    + reflexivity.
    + eexists. repeat split; reflexivity.
    + reflexivity.
    + reflexivity.
Defined.

(** A pass through the body of the loop, whatever the model answers. *)
Lemma loop_body_run (env : Env) (defs : json) (messages : list Message) (s : Proc) :
  loop_body env defs messages s
  = match ollama_chat_reply env (chats s) messages (Some defs) with
    | ChatRaises msg => (inl (ModelError msg), asked s messages (Some defs))
    | ChatAnswers r =>
        match requested (tool_calls (message r)) with
        | [] => (inr (Break (content (message r))), asked s messages (Some defs))
        | tcs =>
            match dispatch_tools env tcs messages (asked s messages (Some defs)) with
            | (inr messages', s') => (inr (Continue messages'), s')
            | (inl e, s') => (inl e, s')
            end
        end
    end.
Proof.
  destruct (ollama_chat_reply env (chats s) messages (Some defs)) as [msg | r] eqn:Hrep.
  - unfold loop_body, bind, ollama_chat. rewrite Hrep. reflexivity.
  - destruct (requested (tool_calls (message r))) as [|tc rest] eqn:Hreq.
    + apply loop_body_break; assumption.
    + rewrite (loop_body_dispatch env defs messages s r Hrep); rewrite Hreq;
        [reflexivity | discriminate].
Qed.

(** X5.  When discovery gives a list of tools that is not empty and the
    model answers its first call without intents, the run is one model
    call on [System(prompt with the dumped definitions); User(prompt)]
    with the definitions as tools, and it returns the text of the model;
    nothing is posted and no identifier is drawn. *)
Theorem plain_answer_needs_one_turn
    (env : Env) (fuel : nat) (user_prompt : string)
    (d : list (string * json)) (r : ChatResponse) :
  answers_json (requests_get_reply env 0 tools_url) (JObj d) ->
  truthy (tools_of d) = true ->
  ollama_chat_reply env 0
    [System (system_message_content (tools_of d)); User user_prompt]
    (Some (tools_of d)) = ChatAnswers r ->
  requested (tool_calls (message r)) = [] ->
  exists s',
    chat_with_ollama_and_tools env (S fuel) user_prompt start
    = (inr (Answered (content (message r))
              [System (system_message_content (tools_of d)); User user_prompt]), s')
    /\ trace s' = [EvGet tools_url;
                   EvChat OLLAMA_MODEL
                     [System (system_message_content (tools_of d)); User user_prompt]
                     (Some (tools_of d))]
    /\ posts s' = 0 /\ uuids s' = 0.
Proof.
  intros Hv Htrue Hrep Hreq. unfold chat_with_ollama_and_tools, bind at 1.
  rewrite get_mcp_tool_definitions_run. simpl gets.
  rewrite (discovery_result_json _ _ Hv).
  change (py_get (JObj d) "tools" (JArr [])) with (@inr exn json (tools_of d)).
  cbv beta iota. rewrite Htrue. cbv beta iota zeta. unfold negb.
  eexists. split.
  - apply while_true_break, loop_body_break; [exact Hrep | exact Hreq].
  - repeat split.
Qed.

Lemma plain_answer_needs_one_turn_witness :
  fst (chat_with_ollama_and_tools Cases.plain_answer 1 "Tell me a story." start)
  = inr (Answered "Once upon a time."
           [System (system_message_content published_tools); User "Tell me a story."]).
Proof.
  destruct (plain_answer_needs_one_turn Cases.plain_answer 0 "Tell me a story."
              [("tools", published_tools)]
              {| message := {| content := "Once upon a time."; tool_calls := None |} |})
    as (s' & Hrun & _).
  - eexists. repeat split; reflexivity.
  - reflexivity.
  - reflexivity.
  - reflexivity.
  - rewrite Hrun. reflexivity.
Defined.

(** ** The invoker and the Tool message *)

(** X6.  A response that [raise_for_status] lets through and whose body
    decodes is handed back as it is, whatever JSON value it holds: the
    invoker checks neither that it is a dict nor its keys. *)
Theorem invoker_passes_body_through
    (env : Env) (tool_name : string) (arguments : json) (s : Proc) (v : json) :
  answers_json
    (requests_post_reply env (posts s) call_url (call_payload tool_name arguments)) v ->
  call_mcp_server_tool env tool_name arguments s
  = (inr v, posted s (call_payload tool_name arguments)).
Proof.
  intros (r & Hrep & Hok & Hbody). rewrite call_mcp_server_tool_run.
  unfold invoke_result. rewrite Hok, Hrep, Hbody. reflexivity.
Qed.

Lemma invoker_passes_body_through_witness :
  fst (call_mcp_server_tool Cases.list_body "get_current_time" (JObj []) start)
  = inr (JArr [JStr "error"; JInt 2]).
Proof.
  rewrite (invoker_passes_body_through Cases.list_body "get_current_time" (JObj [])
             start (JArr [JStr "error"; JInt 2])).
  - reflexivity.
  - eexists. repeat split; reflexivity.
Defined.

(** X7.  The pass through the for loop builds a Tool message exactly for
    the results that are a dict with [error] or [output]; the message then
    carries the id it was given.  Every other result raises. *)
Theorem tool_message_iff_well_shaped (i : string) (out : json) :
  (well_shaped out = true <-> exists m, tool_message i out = inr m)
  /\ (forall m, tool_message i out = inr m -> exists c, m = Tool i c).
Proof.
  assert (Hbad : well_shaped out = false -> exists e, tool_message i out = inl e).
  { destruct out as [| b | z | f | str | l | d]; simpl; intros H;
      try (eexists; reflexivity).
    - unfold tool_message. simpl. destruct (is_infix "error" str); eexists; reflexivity.
    - unfold tool_message. simpl.
      destruct (existsb _ l); eexists; reflexivity.
    - apply orb_false_elim in H. destruct H as [He Ho]. unfold dict_has in He, Ho.
      destruct (dict_get "error" d) eqn:He'; [discriminate|].
      destruct (dict_get "output" d) eqn:Ho'; [discriminate|].
      exists (KeyError "output"). apply tool_message_neither; assumption. }
  split; [split|].
  - intros H. destruct (tool_message_well_shaped i out H) as [c Hc]. eauto.
  - intros [m Hm]. destruct (well_shaped out) eqn:Hw; [reflexivity|].
    destruct (Hbad eq_refl) as [e He]. congruence.
  - intros m Hm. destruct (well_shaped out) eqn:Hw.
    + destruct (tool_message_well_shaped i out Hw) as [c Hc]. exists c. congruence.
    + destruct (Hbad eq_refl) as [e He]. congruence.
Qed.

(** X8.  A result that is not a dict never yields a Tool message: the
    test or the lookup raises [TypeError], also for a list that holds the
    string [error] and for a string that contains it. *)
Theorem result_not_dict_raises_TypeError (i : string) (out : json) :
  is_dict out = false ->
  exists msg, tool_message i out = inl (TypeError msg).
Proof.
  destruct out as [| b | z | f | str | l | d]; simpl; intros H;
    try discriminate; try (eexists; reflexivity).
  - unfold tool_message. simpl. destruct (is_infix "error" str); eexists; reflexivity.
  - unfold tool_message. simpl. destruct (existsb _ l); eexists; reflexivity.
Qed.

Lemma result_not_dict_raises_TypeError_witness :
  tool_message "call_1" (JArr [JStr "error"; JInt 2])
  = inl (TypeError "list indices must be integers or slices, not str")
  /\ tool_message "call_1" (JStr "internal error")
     = inl (TypeError "string indices must be integers, not 'str'").
Proof.
  split.
  - destruct (result_not_dict_raises_TypeError "call_1" (JArr [JStr "error"; JInt 2]))
      as [msg H]; [reflexivity|].
    rewrite H. vm_compute in H. injection H as <-. reflexivity.
  - destruct (result_not_dict_raises_TypeError "call_1" (JStr "internal error"))
      as [msg H]; [reflexivity|].
    rewrite H. vm_compute in H. injection H as <-. reflexivity.
Defined.

(** ** The for loop *)

Lemma tool_message_is_tool (i : string) (out : json) (m : Message) :
  tool_message i out = inr m -> is_tool m = true.
Proof.
  unfold tool_message.
  destruct (py_in "error" out) as [e | [|]]; [discriminate | |].
  - destruct (py_getitem out "error"); [discriminate|]. intros H. injection H as <-.
    reflexivity.
  - destruct (py_getitem out "output"); [discriminate|]. intros H. injection H as <-.
    reflexivity.
Qed.

Lemma tool_message_ill_shaped (i : string) (out : json) :
  well_shaped out = false -> exists e, tool_message i out = inl e.
Proof.
  intros H. destruct (tool_message i out) as [e | m] eqn:Hm; [eauto|].
  destruct out as [| b | z | f | str | l | d]; try discriminate.
  - unfold tool_message in Hm. simpl in Hm.
    destruct (is_infix "error" str); discriminate.
  - unfold tool_message in Hm. simpl in Hm. destruct (existsb _ l); discriminate.
  - simpl in H. apply orb_false_elim in H. destruct H as [He Ho].
    unfold dict_has in He, Ho.
    destruct (dict_get "error" d) eqn:He'; [discriminate|].
    destruct (dict_get "output" d) eqn:Ho'; [discriminate|].
    rewrite (tool_message_neither i d He' Ho') in Hm. discriminate.
Qed.

(** What the for loop has done when it runs to its end. *)
Lemma dispatch_tools_effects (env : Env) (tcs : list ToolCall) :
  forall messages s messages' s',
    dispatch_tools env tcs messages s = (inr messages', s') ->
    exists tool_messages,
      messages' = messages ++ tool_messages
      /\ List.length tool_messages = List.length tcs
      /\ forallb is_tool tool_messages = true
      /\ trace s' = trace s ++ turn_events env (uuids s) tcs
      /\ posts s' = posts s + List.length tcs
      /\ uuids s' = uuids s + List.length tcs
      /\ chats s' = chats s /\ gets s' = gets s.
Proof.
  induction tcs as [|tc rest IH]; intros messages s messages' s' Hrun.
  - simpl in Hrun. injection Hrun as <- <-. exists []. simpl.
    rewrite !app_nil_r. repeat split; lia.
  - simpl in Hrun. unfold bind at 1 in Hrun. rewrite handle_tool_call_run in Hrun.
    destruct (tool_message (call_id_of env (uuids s) tc) (result_of env (posts s) tc))
      as [e | m] eqn:Hm; [discriminate|].
    destruct (IH _ _ _ _ Hrun) as (tms & -> & Hlen & Htool & Htr & Hp & Hu & Hc & Hg).
    exists (m :: tms). simpl in *.
    rewrite (tool_message_is_tool _ _ _ Hm), Htool, Htr, <- !app_assoc. simpl.
    repeat split; lia.
Qed.

(** X9.  When the for loop runs to its end, the conversation it returns is
    the one it was given followed by one Tool message per intent, and the
    calls it made are, for each intent in the order of the list, one
    [uuid4] (also for an intent that has an id) and then one POST of the
    payload of that intent; neither the model nor discovery is called. *)
Theorem for_loop_calls_in_intent_order
    (env : Env) (tcs : list ToolCall) (messages messages' : list Message) (s s' : Proc) :
  dispatch_tools env tcs messages s = (inr messages', s') ->
  exists tool_messages,
    messages' = messages ++ tool_messages
    /\ List.length tool_messages = List.length tcs
    /\ forallb is_tool tool_messages = true
    /\ trace s' = trace s ++ turn_events env (uuids s) tcs
    /\ chats s' = chats s /\ gets s' = gets s.
Proof.
  intros Hrun.
  destruct (dispatch_tools_effects env tcs messages s messages' s' Hrun)
    as (tms & Hm & Hlen & Htool & Htr & _ & _ & Hc & Hg).
  exists tms. repeat split; assumption.
Qed.

Lemma for_loop_calls_in_intent_order_witness :
  exists tool_messages s',
    dispatch_tools Cases.two_calls Cases.two_intents [User "Go."] start
    = (inr ([User "Go."] ++ tool_messages), s')
    /\ trace s' = [EvUuid "uuid-0";
                   EvPost call_url (call_payload "get_current_time" (JObj []));
                   EvUuid "uuid-1";
                   EvPost call_url (call_payload "delete_universe"
                                      (JObj [("force", JBool true)]))].
Proof.
  destruct (dispatch_tools Cases.two_calls Cases.two_intents [User "Go."] start)
    as [[e | messages'] s'] eqn:Hrun; [vm_compute in Hrun; discriminate|].
  destruct (for_loop_calls_in_intent_order Cases.two_calls Cases.two_intents
              [User "Go."] messages' start s' Hrun)
    as (tms & -> & _ & _ & Htr & _).
  exists tms, s'. split; [reflexivity | exact Htr].
Defined.

(** X10.  The for loop stops at the first intent whose result is not well
    shaped: it raises what building the Tool message of that intent
    raises, the intents before it have been posted, that one too, and the
    intents after it are never sent. *)
Theorem for_loop_stops_at_first_bad_result (env : Env) (j : nat) :
  forall tcs messages s tcj,
    nth_error tcs j = Some tcj ->
    (forall i tc, i < j -> nth_error tcs i = Some tc ->
                  well_shaped (result_of env (posts s + i) tc) = true) ->
    well_shaped (result_of env (posts s + j) tcj) = false ->
    exists e s',
      dispatch_tools env tcs messages s = (inl e, s')
      /\ tool_message (call_id_of env (uuids s + j) tcj)
                      (result_of env (posts s + j) tcj) = inl e
      /\ trace s' = trace s ++ turn_events env (uuids s) (firstn (S j) tcs)
      /\ posts s' = posts s + S j.
Proof.
  induction j as [|j IH]; intros tcs messages s tcj Hj Hgood Hbad.
  - destruct tcs as [|tc rest]; [discriminate|]. injection Hj as ->.
    rewrite !Nat.add_0_r in *.
    destruct (tool_message_ill_shaped (call_id_of env (uuids s) tcj) _ Hbad) as [e He].
    exists e, (posted (drawn env s) (payload_of tcj)).
    simpl. unfold bind at 1. rewrite handle_tool_call_run, He.
    simpl. rewrite <- app_assoc. repeat split; lia.
  - destruct tcs as [|tc rest]; [discriminate|]. simpl in Hj.
    assert (H0 := Hgood 0 tc (Nat.lt_0_succ j) eq_refl). rewrite Nat.add_0_r in H0.
    destruct (tool_message_well_shaped (call_id_of env (uuids s) tc) _ H0) as [c Hc].
    destruct (IH rest (messages ++ [Tool (call_id_of env (uuids s) tc) c])
                (posted (drawn env s) (payload_of tc)) tcj Hj)
      as (e & s' & Hrun & He & Htr & Hp).
    + intros i tc' Hi Hn. assert (Hlt : S i < S j) by lia.
      specialize (Hgood (S i) tc' Hlt Hn). rewrite <- plus_n_Sm in Hgood.
      exact Hgood.
    + rewrite <- plus_n_Sm in Hbad. exact Hbad.
    + exists e, s'. simpl dispatch_tools. unfold bind at 1.
      rewrite handle_tool_call_run, Hc, Hrun. simpl in He, Hp.
      rewrite <- !plus_n_Sm.
      split; [reflexivity | split; [exact He | split; [| lia]]].
      rewrite Htr. change (firstn (S (S j)) (tc :: rest)) with (tc :: firstn (S j) rest).
      simpl. rewrite <- !app_assoc. reflexivity.
Qed.

Lemma for_loop_stops_at_first_bad_result_witness :
  exists s',
    dispatch_tools Cases.second_bare Cases.three_intents [] start
    = (inl (KeyError "output"), s')
    /\ posts s' = 2.
Proof.
  destruct (for_loop_stops_at_first_bad_result Cases.second_bare 1
              Cases.three_intents [] start
              (Scenario.intent None "get_current_time" (JObj [])))
    as (e & s' & Hrun & He & _ & Hp).
  - reflexivity.
  - intros i tc Hi Hn. assert (i = 0) as -> by lia.
    simpl in Hn. injection Hn as <-. reflexivity.
  - reflexivity.
  - exists s'. vm_compute in He. injection He as <-. split; [exact Hrun | exact Hp].
Defined.

(** ** The loop and the whole run *)

(** What the loop has done when it returns. *)
Lemma while_true_effects (env : Env) (defs : json) (fuel : nat) :
  forall messages s out s',
    while_true env fuel defs messages s = (inr out, s') ->
    exists tool_messages,
      messages_of out = messages ++ tool_messages
      /\ forallb is_tool tool_messages = true
      /\ posts s' = posts s + List.length tool_messages
      /\ uuids s' = uuids s + List.length tool_messages
      /\ gets s' = gets s
      /\ chats s' <= chats s + fuel.
Proof.
  induction fuel as [|fuel IH]; intros messages s out s' Hrun.
  - simpl in Hrun. injection Hrun as <- <-. exists []. simpl.
    rewrite app_nil_r. repeat split; lia.
  - simpl in Hrun. unfold bind at 1 in Hrun. rewrite loop_body_run in Hrun.
    destruct (ollama_chat_reply env (chats s) messages (Some defs)) as [msg | r];
      [discriminate|].
    destruct (requested (tool_calls (message r))) as [|tc rest].
    + injection Hrun as <- <-. exists []. simpl. rewrite app_nil_r.
      repeat split; lia.
    + destruct (dispatch_tools env (tc :: rest) messages (asked s messages (Some defs)))
        as [[e | messages1] s1] eqn:Hd; [discriminate|].
      destruct (dispatch_tools_effects env _ _ _ _ _ Hd)
        as (tms1 & -> & Hlen1 & Htool1 & _ & Hp1 & Hu1 & Hc1 & Hg1).
      destruct (IH _ _ _ _ Hrun) as (tms2 & Hm & Htool2 & Hp2 & Hu2 & Hg2 & Hc2).
      exists (tms1 ++ tms2). rewrite Hm, app_assoc, forallb_app, Htool1, Htool2.
      rewrite length_app. simpl in *. repeat split; lia.
Qed.

(** X11.  The loop is append-only: when it returns (with the final text,
    or still running), the conversation of the outcome is the one it
    started from followed by Tool messages only, one for each POST made
    and for each identifier drawn, and each pass called the model at most
    once. *)
Theorem loop_only_appends_tool_messages
    (env : Env) (defs : json) (fuel : nat) (messages : list Message) (s s' : Proc)
    (out : Outcome) :
  while_true env fuel defs messages s = (inr out, s') ->
  exists tool_messages,
    messages_of out = messages ++ tool_messages
    /\ forallb is_tool tool_messages = true
    /\ List.length tool_messages = posts s' - posts s
    /\ uuids s' - uuids s = posts s' - posts s
    /\ chats s' <= chats s + fuel.
Proof.
  intros Hrun.
  destruct (while_true_effects env defs fuel messages s out s' Hrun)
    as (tms & Hm & Htool & Hp & Hu & _ & Hc).
  exists tms. repeat split; try assumption; lia.
Qed.

Lemma loop_only_appends_tool_messages_witness :
  exists tool_messages s',
    while_true Cases.two_calls 3 published_tools [User "Go."] start
    = (inr (Answered "Done." ([User "Go."] ++ tool_messages)), s')
    /\ List.length tool_messages = 2.
Proof.
  destruct (while_true Cases.two_calls 3 published_tools [User "Go."] start)
    as [[e | out] s'] eqn:Hrun; [vm_compute in Hrun; discriminate|].
  destruct (loop_only_appends_tool_messages Cases.two_calls published_tools 3
              [User "Go."] start s' out Hrun)
    as (tms & Hm & _ & Hlen & _).
  assert (Hs : posts s' = 2 /\ exists m, out = Answered "Done." m).
  { vm_compute in Hrun. injection Hrun as <- <-. split; [reflexivity | eauto]. }
  destruct Hs as [Hp [m ->]]. simpl in Hm. subst m.
  exists tms, s'. split; [reflexivity|]. rewrite Hlen, Hp. reflexivity.
Defined.

(** X12.  Whenever [chat_with_ollama_and_tools] returns, the conversation
    it ends with is [User(prompt)] alone (the path without tools), or
    [System(...); User(prompt)] followed by Tool messages only; discovery
    was called once, and there is one Tool message per POST and per
    identifier drawn. *)
Theorem run_conversation_shape
    (env : Env) (fuel : nat) (user_prompt : string) (out : Outcome) (s' : Proc) :
  chat_with_ollama_and_tools env fuel user_prompt start = (inr out, s') ->
  gets s' = 1
  /\ ((messages_of out = [User user_prompt] /\ posts s' = 0 /\ chats s' = 1)
      \/ exists defs tool_messages,
           truthy defs = true
           /\ messages_of out
              = [System (system_message_content defs); User user_prompt] ++ tool_messages
           /\ forallb is_tool tool_messages = true
           /\ List.length tool_messages = posts s'
           /\ uuids s' = posts s').
Proof.
  unfold chat_with_ollama_and_tools, bind at 1.
  rewrite get_mcp_tool_definitions_run.
  destruct (discovery_result _) as [e | defs]; [discriminate|].
  destruct (truthy defs) eqn:Ht; simpl negb; cbv iota.
  - intros Hrun. destruct (while_true_effects _ _ _ _ _ _ _ Hrun)
      as (tms & Hm & Htool & Hp & Hu & Hg & _).
    simpl in *. split; [exact Hg|]. right. exists defs, tms.
    repeat split; auto; lia.
  - unfold bind, ollama_chat. simpl.
    destruct (ollama_chat_reply env 0 [User user_prompt] None); [discriminate|].
    intros H. injection H as <- <-. simpl. auto.
Qed.

Lemma run_conversation_shape_witness :
  exists out s' tool_messages,
    chat_with_ollama_and_tools Cases.two_calls 3 "Go." start = (inr out, s')
    /\ messages_of out
       = [System (system_message_content published_tools); User "Go."] ++ tool_messages
    /\ List.length tool_messages = 2.
Proof.
  destruct (chat_with_ollama_and_tools Cases.two_calls 3 "Go." start)
    as [[e | out] s'] eqn:Hrun; [vm_compute in Hrun; discriminate|].
  destruct (run_conversation_shape Cases.two_calls 3 "Go." out s' Hrun)
    as [_ [(Hm & Hp & _) | (defs & tms & _ & Hm & _ & Hlen & _)]].
  - exfalso. vm_compute in Hrun. injection Hrun as _ <-. discriminate.
  - assert (Hs : posts s' = 2
                 /\ exists t, messages_of out
                    = [System (system_message_content published_tools); User "Go."] ++ t).
    { vm_compute in Hrun. injection Hrun as <- <-. split; [reflexivity|].
      eexists. vm_compute. reflexivity. }
    destruct Hs as [Hp [t Ht]].
    exists out, s', t. split; [reflexivity | split; [exact Ht|]].
    rewrite Ht in Hm. simpl in Hm. injection Hm as _ ->. rewrite Hlen, Hp. reflexivity.
Defined.

(** X13.  A failure of the model is not caught: when [ollama.chat] raises
    in a pass of the loop, the loop ends with that error at once, nothing
    is posted in that pass and the conversation is not handed back; the
    same holds for the one call of the path without tools. *)
Theorem model_failure_aborts
    (env : Env) (fuel : nat) (user_prompt : string) (defs : json) (msg : string) :
  fst (get_mcp_tool_definitions env start) = inr defs ->
  (forall messages tools, ollama_chat_reply env 0 messages tools = ChatRaises msg) ->
  exists s',
    chat_with_ollama_and_tools env (S fuel) user_prompt start
    = (inl (ModelError msg), s')
    /\ chats s' = 1 /\ posts s' = 0
  /\ forall messages s,
       ollama_chat_reply env (chats s) messages (Some defs) = ChatRaises msg ->
       while_true env (S fuel) defs messages s
       = (inl (ModelError msg), asked s messages (Some defs)).
Proof.
  intros Hdisc Hdown.
  assert (Hloop : forall messages s,
             ollama_chat_reply env (chats s) messages (Some defs) = ChatRaises msg ->
             while_true env (S fuel) defs messages s
             = (inl (ModelError msg), asked s messages (Some defs))).
  { intros messages s Hrep. simpl. unfold bind at 1.
    rewrite loop_body_run, Hrep. reflexivity. }
  rewrite get_mcp_tool_definitions_run in Hdisc. simpl in Hdisc.
  unfold chat_with_ollama_and_tools, bind at 1.
  rewrite get_mcp_tool_definitions_run. simpl gets. rewrite Hdisc.
  destruct (truthy defs); simpl negb; cbv iota.
  - eexists. split; [apply Hloop, Hdown | auto].
  - unfold bind, ollama_chat. simpl. rewrite Hdown. eexists. split; [reflexivity | auto].
Qed.

Lemma model_failure_aborts_witness :
  fst (chat_with_ollama_and_tools Cases.model_down 4 "What time is it?" start)
  = inl (ModelError "connection refused").
Proof.
  destruct (model_failure_aborts Cases.model_down 3 "What time is it?"
              published_tools "connection refused") as (s' & Hrun & _).
  - reflexivity.
  - reflexivity.
  - rewrite Hrun. reflexivity.
Defined.

(** The exceptions of the for loop are those of building a Tool message. *)
Lemma tool_message_exn (i : string) (out : json) (e : exn) :
  tool_message i out = inl e ->
  e = KeyError "output" \/ exists msg, e = TypeError msg.
Proof.
  unfold tool_message.
  destruct out as [| b | z | f | str | l | d]; simpl;
    try (intros H; injection H as <-; right; eexists; reflexivity).
  - destruct (is_infix "error" str); intros H; injection H as <-; right; eauto.
  - destruct (existsb _ l); intros H; injection H as <-; right; eauto.
  - unfold dict_has. destruct (dict_get "error" d); [discriminate|].
    destruct (dict_get "output" d); [discriminate|].
    intros H. injection H as <-. left. reflexivity.
Qed.

Lemma dispatch_tools_exn (env : Env) (tcs : list ToolCall) :
  forall messages s e s',
    dispatch_tools env tcs messages s = (inl e, s') ->
    e = KeyError "output" \/ exists msg, e = TypeError msg.
Proof.
  induction tcs as [|tc rest IH]; intros messages s e s' Hrun; [discriminate|].
  simpl in Hrun. unfold bind at 1 in Hrun. rewrite handle_tool_call_run in Hrun.
  destruct (tool_message (call_id_of env (uuids s) tc) (result_of env (posts s) tc))
    as [e0 | m] eqn:Hm.
  - injection Hrun as <- _. apply (tool_message_exn _ _ _ Hm).
  - apply (IH _ _ _ _ Hrun).
Qed.

Lemma while_true_exn (env : Env) (defs : json) (fuel : nat) :
  forall messages s e s',
    while_true env fuel defs messages s = (inl e, s') ->
    (exists msg, e = ModelError msg)
    \/ e = KeyError "output" \/ exists msg, e = TypeError msg.
Proof.
  induction fuel as [|fuel IH]; intros messages s e s' Hrun; [discriminate|].
  simpl in Hrun. unfold bind at 1 in Hrun. rewrite loop_body_run in Hrun.
  destruct (ollama_chat_reply env (chats s) messages (Some defs)) as [msg | r].
  - injection Hrun as <- _. left. eauto.
  - destruct (requested (tool_calls (message r))) as [|tc rest]; [discriminate|].
    destruct (dispatch_tools env (tc :: rest) messages (asked s messages (Some defs)))
      as [[e0 | messages1] s1] eqn:Hd.
    + injection Hrun as <- _. right. apply (dispatch_tools_exn _ _ _ _ _ _ Hd).
    + apply (IH _ _ _ _ Hrun).
Qed.

(** X14.  The exceptions a run can end with: the [AttributeError] of
    discovery on a body that is not a dict (before any model call), the
    error of the model, [KeyError('output')], or a [TypeError] on a result
    that is not a dict.  A [RequestException] never leaves
    [chat_with_ollama_and_tools], and no other key is ever missed. *)
Theorem run_exceptions (env : Env) (fuel : nat) (user_prompt : string) (e : exn) (s' : Proc) :
  chat_with_ollama_and_tools env fuel user_prompt start = (inl e, s') ->
  ((exists msg, e = AttributeError msg) /\ s' = fetched start)
  \/ (exists msg, e = ModelError msg)
  \/ e = KeyError "output"
  \/ (exists msg, e = TypeError msg).
Proof.
  unfold chat_with_ollama_and_tools, bind at 1.
  rewrite get_mcp_tool_definitions_run.
  destruct (discovery_result _) as [e0 | defs] eqn:Hd.
  - intros H. injection H as <- <-. left. split; [|reflexivity].
    unfold discovery_result in Hd.
    destruct (requests_get_reply env (gets start) tools_url) as [m | r]; [discriminate|].
    destruct (transport_failure (HttpAnswers r)); [discriminate|].
    destruct (body r) as [m | v]; [discriminate|].
    destruct v; simpl in Hd; try discriminate; injection Hd as <-; eauto.
  - destruct (truthy defs); simpl negb; cbv iota.
    + intros Hrun. right. apply (while_true_exn _ _ _ _ _ _ _ Hrun).
    + unfold bind, ollama_chat. simpl.
      destruct (ollama_chat_reply env 0 [User user_prompt] None); [|discriminate].
      intros H. injection H as <- _. right. left. eauto.
Qed.

Lemma run_exceptions_witness :
  fst (chat_with_ollama_and_tools Scenario.bare_answer 3 "What time is it?" start)
  = inl (KeyError "output").
Proof.
  destruct (chat_with_ollama_and_tools Scenario.bare_answer 3 "What time is it?" start)
    as [[e | out] s'] eqn:Hrun; [|vm_compute in Hrun; discriminate].
  destruct (run_exceptions Scenario.bare_answer 3 "What time is it?" e s' Hrun)
    as [[[m ->] _] | [[m ->] | [-> | [m ->]]]];
    try reflexivity; vm_compute in Hrun; discriminate.
Defined.

(** ** The client facing the registry of the repository *)

Section Together.

Variable clock : nat -> datetime.
Variable chat : nat -> list Message -> option json -> ChatReply.
Variable uuid : nat -> string.

Lemma registry_env_result (k : nat) (tc : ToolCall) :
  result_of (registry_env clock chat uuid) k tc
  = call_tool (clock k)
      [("tool_name", JStr (fn_name (tc_function tc)));
       ("arguments", fn_arguments (tc_function tc))].
Proof. reflexivity. Qed.




End Together.

(** X15.  End to end, an intent for [get_current_time] is answered with a
    Tool message whose content is the dumped [{"current_time_utc": ...}]
    read off the clock at that call, whatever the arguments of the intent,
    and an intent for any other name with the dumped
    [{"error": "Tool 'name' not found or supported by this server."}];
    the [tool_name] the registry echoes is dropped. *)
Theorem end_to_end_tool_message
    (clock : nat -> datetime) (chat : nat -> list Message -> option json -> ChatReply)
    (uuid : nat -> string) (k : nat) (tc : ToolCall) (i : string) :
  tool_message i (result_of (registry_env clock chat uuid) k tc)
  = inr (Tool i
           (if String.eqb (fn_name (tc_function tc)) "get_current_time"
            then json_dumps (JObj [("current_time_utc",
                                    JStr (isoformat (clock k) ++ "Z")%string)])
            else json_dumps
                   (JObj [("error",
                           JStr ("Tool '" ++ fn_name (tc_function tc)
                                 ++ "' not found or supported by this server.")%string)]))).
Proof.
  rewrite registry_env_result. unfold call_tool. simpl dict_get. cbv iota. simpl eq_str.
  destruct (String.eqb (fn_name (tc_function tc)) "get_current_time"); reflexivity.
Qed.



(** ** The answers of the registry *)

(** X17.  Every answer of [call_tool] is a dict that echoes the
    [tool_name] of the request ([None] when the request has none) and
    holds exactly one of [output] and [error]: [output] when the name is
    [get_current_time], [error] otherwise.  Other keys of the request have
    no effect. *)
Theorem registry_answer_shape (now : datetime) (tool_call : list (string * json)) :
  exists d,
    call_tool now tool_call = JObj d
    /\ dict_get "tool_name" d = Some (requested_name tool_call)
    /\ dict_has "output" d = eq_str (requested_name tool_call) "get_current_time"
    /\ dict_has "error" d = negb (eq_str (requested_name tool_call) "get_current_time")
    /\ call_tool now tool_call
       = call_tool now [("tool_name", requested_name tool_call)].
Proof.
  unfold call_tool. fold (requested_name tool_call). simpl dict_get.
  fold (requested_name tool_call).
  destruct (eq_str (requested_name tool_call) "get_current_time");
    eexists; repeat split; reflexivity.
Qed.

(** X18.  The registry runs exactly the tools it publishes: the answer of
    [call_tool] is an error precisely when the requested name is not among
    the names [get_tools_definition] lists. *)
Theorem registry_runs_what_it_publishes
    (now : datetime) (tool_call : list (string * json)) :
  is_error_result (call_tool now tool_call) = negb (registered (requested_name tool_call))
  /\ py_in "output" (call_tool now tool_call)
     = inr (registered (requested_name tool_call)).
Proof.
  rewrite registered_get_current_time. unfold call_tool.
  fold (requested_name tool_call).
  destruct (eq_str (requested_name tool_call) "get_current_time"); split; reflexivity.
Qed.

(** X19.  A response to a call that [raise_for_status] lets through but
    whose body does not decode is caught like a transport failure: the
    invoker returns [{"tool_name": name, "error": text}] with the text of
    the decoding error, and the Tool message carries that text. *)
Theorem undecodable_body_is_in_band
    (env : Env) (tool_name : string) (arguments : json) (s : Proc)
    (r : Response) (text : string) :
  requests_post_reply env (posts s) call_url (call_payload tool_name arguments)
  = HttpAnswers r ->
  transport_failure (HttpAnswers r) = None ->
  body r = NotJson text ->
  call_mcp_server_tool env tool_name arguments s
  = (inr (Err tool_name text), posted s (call_payload tool_name arguments))
  /\ forall i, tool_message i (Err tool_name text)
               = inr (Tool i (json_dumps (JObj [("error", JStr text)]))).
Proof.
  intros Hrep Hok Hbody. rewrite call_mcp_server_tool_run.
  unfold invoke_result. rewrite Hrep, Hok, Hbody. split; reflexivity.
Qed.

Lemma undecodable_body_is_in_band_witness :
  fst (call_mcp_server_tool Cases.html_page "get_current_time" (JObj []) start)
  = inr (Err "get_current_time" "Expecting value: line 1 column 1 (char 0)").
Proof.
  destruct (undecodable_body_is_in_band Cases.html_page "get_current_time" (JObj [])
              start
              {| status_code := 200; reason := "OK"; url := call_url;
                 body := NotJson "Expecting value: line 1 column 1 (char 0)" |}
              "Expecting value: line 1 column 1 (char 0)") as [H _].
  - reflexivity.
  - reflexivity.
  - reflexivity.
  - rewrite H. reflexivity.
Defined.
